(** * YT-Keyword-Analyzer: a shallow embedding of [src/index.js]

    The development follows the class [YTKeywordAnalyzer]:
    - the pattern tables of the constructor,
    - the keyword scorer [analyzeKeyword] with [calculateTrendDirection]
      and [getKeywordRecommendation],
    - the batch analyzer [analyzeKeywords] with [generateInsights],
    - the request router [handleRequest], [handleToolCall] and the
      message handler installed by [start].

    Modelling conventions.
    - Strings are [string]; [toLowerCase] maps the ASCII letters and is
      the built-in on ASCII text.  Statements that depend on the
      lowercased form of an input keyword assume an ASCII keyword;
      statements about the scoring of an already lowercased keyword
      hold for every string.
    - Keyword items are taken as the tool's [inputSchema] declares them:
      every field is either absent or of its declared type.  A bare string
      item is accepted as the code accepts it; an item without a string
      [keyword] makes the scorer throw, as in the source.
    - [relevance] and the values of [Math.random] are rationals and the
      score expression is evaluated exactly; [0.4], [0.5], [0.7], [0.3]
      are the decimal constants of the source.  The IEEE rounding of the
      intermediate products is not modelled.  For a binary64 value [r]
      the tests [r > 0.7] and [r > 0.3] come out the same against the
      decimal constants as against their binary64 roundings, which lie
      just below them with no binary64 value in between.
    - [Math.random] is a global generator: it is a sequence [random] of
      values and a counter of the draws made so far, threaded through
      the scorer.  [new Date().toISOString()] is the parameter [now].
    - Exceptions are the [Throw] case of [Result]; an [async] function
      that throws is a rejected promise whose [await] rethrows, which is
      the same propagation.
    - [console.log] output is not modelled. *)

From Stdlib Require Import ZArith QArith Qround Lia Lqa List Bool.
From Stdlib Require Import Ascii String DecimalString.
From Stdlib Require Import Sorted Permutation.
Import ListNotations.

Local Open Scope string_scope.
Local Open Scope Z_scope.

(** ** Strings: the built-ins the analyzer calls *)

(** [p] is a prefix of [s], code unit by code unit. *)
Fixpoint startsWith (s p : string) {struct p} : bool :=
  match p with
  | EmptyString => true
  | String c p' =>
      match s with
      | EmptyString => false
      | String d s' => if Ascii.eqb c d then startsWith s' p' else false
      end
  end.

(** [String.prototype.includes]: [p] occurs in [s] at some position. *)
Fixpoint includes (s p : string) : bool :=
  if startsWith s p then true
  else match s with
       | EmptyString => false
       | String _ s' => includes s' p
       end.

Definition lower_ascii (c : ascii) : ascii :=
  let n := nat_of_ascii c in
  if (Nat.leb 65 n && Nat.leb n 90)%bool then ascii_of_nat (n + 32) else c.

(** [String.prototype.toLowerCase] on ASCII text: the letters A-Z become
    a-z and every other character is kept.  The built-in also changes
    characters outside ASCII, two of them into ASCII letters (U+212A
    becomes k, U+0130 becomes i followed by U+0307); the statements
    that read the lowercased form of an input keyword are therefore
    made for ASCII keywords ([isAscii] below). *)
Fixpoint toLowerCase (s : string) : string :=
  match s with
  | EmptyString => EmptyString
  | String c s' => String (lower_ascii c) (toLowerCase s')
  end.

(** [s.split(sep)] for a one-character separator: the pieces between the
    separators, empty pieces included, so that a string with [n]
    separators yields [n + 1] pieces. *)
Fixpoint split_aux (sep : ascii) (s : string) (cur : string) : list string :=
  match s with
  | EmptyString => [cur]
  | String c s' =>
      if Ascii.eqb c sep then cur :: split_aux sep s' EmptyString
      else split_aux sep s' (cur ++ String c EmptyString)
  end.

Definition split (s : string) (sep : ascii) : list string :=
  split_aux sep s EmptyString.

(** The regular expression [/202[4-9]/] tested against [s]: the text
    [202] followed by one of the digits 4 to 9, at some position. *)
Definition is_digit_4_9 (c : ascii) : bool :=
  let n := nat_of_ascii c in (Nat.leb 52 n && Nat.leb n 57)%bool.

Definition year_here (s : string) : bool :=
  match s with
  | String "2" (String "0" (String "2" (String d _))) => is_digit_4_9 d
  | _ => false
  end.

Fixpoint regex_year_test (s : string) : bool :=
  if year_here s then true
  else match s with
       | EmptyString => false
       | String _ s' => regex_year_test s'
       end.

(** Template literals interpolate an array length in decimal. *)
Definition string_of_nat (n : nat) : string :=
  NilEmpty.string_of_uint (Nat.to_uint n).

(** The double quote character, for the text of [nextSteps]. *)
Definition dquote : string := String (ascii_of_nat 34) EmptyString.

(** ** Numbers *)

(** The values a JavaScript number expression takes in this program. *)
Inductive JsNumber : Type :=
| Finite (q : Q)
| NaN
| PosInfinity
| NegInfinity.

(** [Math.round] on a finite value: the nearest integer, ties towards
    plus infinity. *)
Definition round_half_up (q : Q) : Z := Qfloor (q + (1 # 2)).

Definition Math_round (x : JsNumber) : JsNumber :=
  match x with
  | Finite q => Finite (inject_Z (round_half_up q))
  | other => other
  end.

(** [a > b] on finite numbers. *)
Definition Qgtb (a b : Q) : bool := negb (Qle_bool a b).

(** [a / b] on numbers with [b] non-negative: division by zero gives
    [NaN] for [0 / 0] and a signed infinity otherwise. *)
Definition js_div (a b : Q) : JsNumber :=
  if Qeq_bool b 0 then
    if Qeq_bool a 0 then NaN
    else if Qle_bool 0 a then PosInfinity else NegInfinity
  else Finite (a / b).

(** [x || d] for a number field that may be absent: [undefined] and [0]
    are both falsy. *)
Definition number_or (x : option Q) (d : Q) : Q :=
  match x with
  | Some q => if Qeq_bool q 0 then d else q
  | None => d
  end.

(** [x || d] for a string field that may be absent: [undefined] and the
    empty string are both falsy. *)
Definition string_or (x : option string) (d : string) : string :=
  match x with
  | Some EmptyString => d
  | Some s => s
  | None => d
  end.

(** ** Exceptions *)

Inductive Exn : Type :=
| Error (message : string)        (* [new Error(message)] *)
| TypeError (message : string).   (* thrown by the engine *)

Definition message_of (e : Exn) : string :=
  match e with Error m => m | TypeError m => m end.

Inductive Result (A : Type) : Type :=
| Ok (a : A)
| Throw (e : Exn).
Arguments Ok {A} a.
Arguments Throw {A} e.

(** ** Pattern tables (constructor) *)

Record CompetitionPatterns : Type := {
  highCompetition : list string;
  mediumCompetition : list string;
  lowCompetition : list string
}.

Definition competitionPatterns : CompetitionPatterns := {|
  highCompetition := ["tutorial"; "how to"; "best"; "review"; "top 10"; "guide"];
  mediumCompetition := ["tips"; "tricks"; "explained"; "walkthrough"; "demo"];
  lowCompetition := ["mistakes"; "underrated"; "hidden"; "secret"; "advanced"]
|}.

Definition trendingTopics : list string :=
  ["ai"; "chatgpt"; "automation"; "2025"; "2024"; "shorts"; "viral"].

(** ** Data model *)

(** An item of the [keywords] array, as the tool's [inputSchema] types it. *)
Record KeywordInput : Type := {
  in_keyword : option string;
  in_category : option string;
  in_searchVolume : option string;
  in_competition : option string;
  in_relevance : option Q
}.

(** The scorer accepts a bare string as well as an object. *)
Inductive KeywordData : Type :=
| KwString (s : string)
| KwObject (o : KeywordInput).

Module Level.
Inductive t : Type := low | medium | high.
End Level.

Module Trend.
Inductive t : Type := rising | stable | declining.
End Trend.

Module Difficulty.
Inductive t : Type := easy | medium | hard.
End Difficulty.

Module Rating.
Inductive t : Type := excellent | good | low.
End Rating.

Record Analysis : Type := {
  competitionScore : Z;
  competitionLevel : Level.t;
  volumeScore : Z;
  volumeLevel : Level.t;
  trendDirection : Trend.t;
  difficulty : Difficulty.t
}.

Record AnalyzedKeyword : Type := {
  keyword : string;
  category : string;
  analysis : Analysis;
  relevance : Q;
  opportunityScore : Z;
  opportunityRating : Rating.t;
  recommendation : string
}.

(** ** The scorer *)

(** [for (const pattern of patterns) { if (keyword.includes(pattern))
    { score = hit(score); break; } }]: the first pattern that occurs
    updates the score and ends the loop. *)
Fixpoint scan (patterns : list string) (keyword : string)
         (hit : Z -> Z) (score : Z) : Z :=
  match patterns with
  | [] => score
  | pattern :: rest =>
      if includes keyword pattern then hit score
      else scan rest keyword hit score
  end.

(** The value of [competitionScore] after the three pattern loops
    (lines 231-253). *)
Definition patternScore (keyword : string) : Z :=
  let competitionScore := 50 in
  let competitionScore :=
    scan (highCompetition competitionPatterns) keyword
         (fun s => s + 15) competitionScore in
  let competitionScore :=
    scan (mediumCompetition competitionPatterns) keyword
         (fun s => s + 5) competitionScore in
  scan (lowCompetition competitionPatterns) keyword
       (fun s => s - 20) competitionScore.

(** Long-tail relief (lines 255-258). *)
Definition longTailRelief (keyword : string) (score : Z) : Z :=
  if Nat.leb 4 (List.length (split keyword " ")) then score - 15 else score.

(** [Math.max(10, Math.min(95, score))] (line 261). *)
Definition clamp (score : Z) : Z := Z.max 10 (Z.min 95 score).

Definition computeCompetitionScore (keyword : string) : Z :=
  clamp (longTailRelief keyword (patternScore keyword)).

(** The [switch] on [inputData.searchVolume] (lines 264-270). *)
Definition baseVolumeScore (searchVolume : option string) : Z :=
  match searchVolume with
  | Some v =>
      if String.eqb v "high" then 85
      else if String.eqb v "medium" then 60
      else if String.eqb v "low" then 35
      else 50
  | None => 50
  end.

(** Volume with the trending boost (lines 272-278). *)
Definition computeVolumeScore (keyword : string)
           (searchVolume : option string) : Z :=
  scan trendingTopics keyword (fun v => Z.min 100 (v + 15))
       (baseVolumeScore searchVolume).

Definition getKeywordRecommendation (score : Z) (category : string) : string :=
  if 70 <=? score then
    if String.eqb category "primary"
    then "Highly recommended for title"
    else "Strong candidate for description/tags"
  else if 50 <=? score then "Good supporting keyword for description"
  else "Consider for long-form content or tags only".

(** The score expression of lines 285-289, evaluated in exact rational
    arithmetic.  The source evaluates it in binary64, which gives the
    same integer whenever the exact sum is not within rounding distance
    of a half-integer (as for a relevance that is absent, 0 or 0.5),
    can differ by one otherwise, and overflows to [Infinity] for a
    relevance near the largest binary64 value.  The statements that
    name the value of a score are made at inputs of the first kind;
    the others relate fields of the output to each other. *)
Definition computeOpportunityScore (volumeScore competitionScore : Z)
           (relevance : option Q) : Z :=
  round_half_up
    (inject_Z volumeScore * (4 # 10)
     + inject_Z (100 - competitionScore) * (4 # 10)
     + number_or relevance (1 # 2) * inject_Z 20)%Q.

Definition levelOf (score : Z) : Level.t :=
  if 70 <=? score then Level.high
  else if 40 <=? score then Level.medium
  else Level.low.

Definition difficultyOf (competitionScore : Z) : Difficulty.t :=
  if 70 <=? competitionScore then Difficulty.hard
  else if 40 <=? competitionScore then Difficulty.medium
  else Difficulty.easy.

Definition ratingOf (opportunityScore : Z) : Rating.t :=
  if 70 <=? opportunityScore then Rating.excellent
  else if 50 <=? opportunityScore then Rating.good
  else Rating.low.

(** [typeof keywordData === 'string' ? keywordData : keywordData.keyword],
    the receiver of [toLowerCase] on line 227; calling the method on
    [undefined] throws. *)
Definition keywordText (keywordData : KeywordData) : Result string :=
  match keywordData with
  | KwString s => Ok s
  | KwObject o =>
      match in_keyword o with
      | Some s => Ok s
      | None =>
          Throw (TypeError
                   "Cannot read properties of undefined (reading 'toLowerCase')")
      end
  end.

(** [inputData] of line 228. *)
Definition inputDataOf (keywordData : KeywordData) : KeywordInput :=
  match keywordData with
  | KwString s =>
      {| in_keyword := Some s; in_category := None; in_searchVolume := None;
         in_competition := None; in_relevance := None |}
  | KwObject o => o
  end.

(** ** Effects *)

(** Computations that may throw and may draw from [Math.random]: the
    state is the number of draws made so far, and it survives a throw. *)
Definition M (A : Type) : Type := nat -> Result A * nat.

Definition ret {A} (a : A) : M A := fun n => (Ok a, n).

Definition throw {A} (e : Exn) : M A := fun n => (Throw e, n).

Definition bind {A B} (m : M A) (k : A -> M B) : M B :=
  fun n => match m n with
           | (Ok a, n') => k a n'
           | (Throw e, n') => (Throw e, n')
           end.

Definition lift {A} (r : Result A) : M A := fun n => (r, n).

(** [try { m } catch (error) { handler(error) }]. *)
Definition try_catch {A} (m : M A) (handler : Exn -> M A) : M A :=
  fun n => match m n with
           | (Ok a, n') => (Ok a, n')
           | (Throw e, n') => handler e n'
           end.

Notation "x <- m ;; k" := (bind m (fun x => k))
  (at level 61, m at next level, right associativity).

(** [array.map(f)] for an [f] with effects: left to right, stopping at
    the first throw. *)
Fixpoint mapM {A B} (f : A -> M B) (l : list A) : M (list B) :=
  match l with
  | [] => ret []
  | x :: rest =>
      y <- f x ;;
      ys <- mapM f rest ;;
      ret (y :: ys)
  end.

(** ** Array built-ins *)

(** [Array.prototype.sort(compare)] is a stable sort (ECMAScript 2019,
    and V8 since Node 11): an insertion sort that puts an element in
    front of the first one it does not have to follow.  [sort_unique]
    below shows that every stable sort returns this list. *)
Fixpoint sort_insert {A} (compare : A -> A -> Z) (x : A) (l : list A) : list A :=
  match l with
  | [] => [x]
  | y :: rest =>
      if compare x y <=? 0 then x :: y :: rest
      else y :: sort_insert compare x rest
  end.

Definition Array_sort {A} (compare : A -> A -> Z) (l : list A) : list A :=
  fold_right (sort_insert compare) [] l.

(** [array.slice(0, n)]. *)
Definition slice0 {A} (n : nat) (l : list A) : list A := firstn n l.

(** ** Reports, requests and responses *)

Module Insight.
Record t : Type := {
  type : string;
  message : string;
  keywords : option (list string)
}.
End Insight.

Record Summary : Type := {
  topOpportunities : nat;
  goodOpportunities : nat;
  lowPriority : nat;
  averageOpportunityScore : JsNumber
}.

Record Recommended : Type := {
  primary : list AnalyzedKeyword;
  secondary : list AnalyzedKeyword;
  longTail : list AnalyzedKeyword
}.

Record AnalysisReport : Type := {
  concept : string;
  targetAudience : string;
  niche : string;
  analyzedAt : string;
  totalAnalyzed : nat;
  summary : Summary;
  recommended : Recommended;
  allKeywords : list AnalyzedKeyword;
  insights : list Insight.t;
  nextSteps : list string
}.

(** The value found under [keywords] in the arguments of a call. *)
Inductive KeywordsValue : Type :=
| Undefined                           (* the field is missing *)
| Null
| Boolean (b : bool)
| Number (q : Q)
| Text (s : string)
| PlainObject
| Array (items : list KeywordData).

Definition truthy (v : KeywordsValue) : bool :=
  match v with
  | Undefined | Null => false
  | Boolean b => b
  | Number q => negb (Qeq_bool q 0)
  | Text s => negb (String.eqb s "")
  | PlainObject | Array _ => true
  end.

Definition Array_isArray (v : KeywordsValue) : bool :=
  match v with Array _ => true | _ => false end.

Module Arguments.
Record t : Type := {
  keywords : KeywordsValue;
  concept : option string;
  targetAudience : option string;
  niche : option string
}.
End Arguments.

Module Params.
Record t : Type := {
  name : option string;
  arguments : option Arguments.t      (* [None]: no [arguments] field *)
}.
End Params.

(** A request id is any JSON value; these are the shapes in use. *)
Inductive Id : Type :=
| IdUndefined
| IdNull
| IdNumber (n : Z)
| IdString (s : string).

Module Request.
Record t : Type := {
  method : option string;
  params : option Params.t;           (* [None]: no [params] field *)
  id : Id
}.
End Request.

(** One entry of the [tools/list] answer; of the static [inputSchema]
    only the [required] list is kept. *)
Record Tool : Type := {
  tool_name : string;
  tool_description : string;
  tool_required : list string
}.

Inductive ResultBody : Type :=
| PingResult (status agent version timestamp : string)
| ToolsListResult (tools : list Tool)
| ToolCallResult (content : AnalysisReport).

(** The response envelope: [{jsonrpc, result, id}] or
    [{jsonrpc, error: {code, message}, id}]. *)
Inductive Response : Type :=
| Success (result : ResultBody) (id : Id)
| Failure (code : Z) (message : string) (id : Id).

Definition agentName : string := "YT-Keyword-Analyzer".
Definition agentVersion : string := "1.0.0".

Section Analyzer.

(** The values [Math.random()] returns, in the order of the calls. *)
Variable random : nat -> Q.

(** The value of [new Date().toISOString()]. *)
Variable now : string.

Definition Math_random : M Q := fun n => (Ok (random n), S n).

Definition calculateTrendDirection (keyword : string) : M Trend.t :=
  let trendingUp := existsb (fun t => includes keyword t) trendingTopics in
  let hasYear := regex_year_test keyword in
  if (trendingUp || hasYear)%bool then ret Trend.rising
  else if (includes keyword "classic" || includes keyword "traditional")%bool
  then ret Trend.stable
  else
    rand <- Math_random ;;
    if Qgtb rand (7 # 10) then ret Trend.rising
    else if Qgtb rand (3 # 10) then ret Trend.stable
    else ret Trend.declining.

(** [analyzeKeyword(keywordData, _niche)]; the second parameter is not
    used by the body and is left out. *)
Definition analyzeKeyword (keywordData : KeywordData) : M AnalyzedKeyword :=
  text <- lift (keywordText keywordData) ;;
  let keyword := toLowerCase text in
  let inputData := inputDataOf keywordData in
  let competitionScore := computeCompetitionScore keyword in
  let volumeScore := computeVolumeScore keyword (in_searchVolume inputData) in
  trendDirection <- calculateTrendDirection keyword ;;
  let opportunityScore :=
    computeOpportunityScore volumeScore competitionScore
                            (in_relevance inputData) in
  let difficulty := difficultyOf competitionScore in
  ret {| keyword := text;
         category := string_or (in_category inputData) "general";
         analysis := {| competitionScore := competitionScore;
                        competitionLevel := levelOf competitionScore;
                        volumeScore := volumeScore;
                        volumeLevel := levelOf volumeScore;
                        trendDirection := trendDirection;
                        difficulty := difficulty |};
         relevance := number_or (in_relevance inputData) (1 # 2);
         opportunityScore := opportunityScore;
         opportunityRating := ratingOf opportunityScore;
         recommendation :=
           getKeywordRecommendation
             opportunityScore
             (string_or (in_category inputData) "general") |}.

(** ** The batch analyzer *)

(** The three tiers of lines 185-187. *)
Definition topKeywords (analyzedKeywords : list AnalyzedKeyword) :=
  filter (fun k => 70 <=? opportunityScore k) analyzedKeywords.

Definition goodKeywords (analyzedKeywords : list AnalyzedKeyword) :=
  filter (fun k => (50 <=? opportunityScore k) && (opportunityScore k <? 70))%bool
         analyzedKeywords.

Definition lowPriorityKeywords (analyzedKeywords : list AnalyzedKeyword) :=
  filter (fun k => opportunityScore k <? 50) analyzedKeywords.

Definition isRising (k : AnalyzedKeyword) : bool :=
  match trendDirection (analysis k) with Trend.rising => true | _ => false end.

Definition isEasyWin (k : AnalyzedKeyword) : bool :=
  match difficulty (analysis k) with
  | Difficulty.easy => 40 <=? volumeScore (analysis k)
  | _ => false
  end.

(** The insights are pushed in this order. *)
Definition generateInsights (analyzedKeywords : list AnalyzedKeyword)
           (concept niche : option string) : list Insight.t :=
  let categories := map category analyzedKeywords in
  let gap :=
    if negb (existsb (String.eqb "long-tail") categories) then
      [ {| Insight.type := "gap";
           Insight.message :=
             "Consider adding more long-tail keywords for better voice search optimization";
           Insight.keywords := None |} ]
    else [] in
  let risingKeywords := filter isRising analyzedKeywords in
  let opportunity :=
    if Nat.ltb 0 (List.length risingKeywords) then
      [ {| Insight.type := "opportunity";
           Insight.message :=
             string_of_nat (List.length risingKeywords)
             ++ " keywords are trending up - prioritize these for timely content";
           Insight.keywords := Some (map keyword (slice0 3 risingKeywords)) |} ]
    else [] in
  let easyWins := filter isEasyWin analyzedKeywords in
  let quickWin :=
    if Nat.ltb 0 (List.length easyWins) then
      [ {| Insight.type := "quick-win";
           Insight.message :=
             "Found " ++ string_of_nat (List.length easyWins)
             ++ " low-competition keywords with decent volume";
           Insight.keywords := Some (map keyword (slice0 3 easyWins)) |} ]
    else [] in
  let nicheNote :=
    match niche with
    | Some (String c n) =>
        [ {| Insight.type := "niche";
             Insight.message :=
               "For " ++ String c n
               ++ " content, focus on specific terminology and community language";
             Insight.keywords := None |} ]
    | _ => []
    end in
  (gap ++ opportunity ++ quickWin ++ nicheNote)%list.

(** The comparator handed to [sort] on line 182. *)
Definition byOpportunity (a b : AnalyzedKeyword) : Z :=
  opportunityScore b - opportunityScore a.

Definition analyzeKeywords (args : option Arguments.t) : M AnalysisReport :=
  match args with
  | None =>
      throw (TypeError
               "Cannot destructure property 'keywords' of 'undefined' as it is undefined.")
  | Some args =>
      let keywords := Arguments.keywords args in
      let concept := Arguments.concept args in
      let targetAudience := Arguments.targetAudience args in
      let niche := Arguments.niche args in
      if (negb (truthy keywords) || negb (Array_isArray keywords))%bool
      then throw (Error "Keywords array is required")
      else
        match keywords with
        | Array items =>
          mapped <- mapM analyzeKeyword items ;;
          let analyzedKeywords := Array_sort byOpportunity mapped in
          let topKeywords := topKeywords analyzedKeywords in
          let goodKeywords := goodKeywords analyzedKeywords in
          let lowPriorityKeywords := lowPriorityKeywords analyzedKeywords in
          let insights := generateInsights analyzedKeywords concept niche in
          let recommended :=
            {| primary := slice0 3 topKeywords;
               secondary := slice0 5 goodKeywords;
               longTail :=
                 slice0 10 (filter (fun k => String.eqb (category k) "long-tail")
                                   analyzedKeywords) |} in
          ret {| concept := string_or concept "Not specified";
                 targetAudience := string_or targetAudience "general";
                 niche := string_or niche "general";
                 analyzedAt := now;
                 totalAnalyzed := List.length analyzedKeywords;
                 summary :=
                   {| topOpportunities := List.length topKeywords;
                      goodOpportunities := List.length goodKeywords;
                      lowPriority := List.length lowPriorityKeywords;
                      averageOpportunityScore :=
                        Math_round
                          (js_div
                             (inject_Z
                                (fold_left (fun sum k => sum + opportunityScore k)
                                           analyzedKeywords 0))
                             (inject_Z (Z.of_nat (List.length analyzedKeywords)))) |};
                 recommended := recommended;
                 allKeywords := analyzedKeywords;
                 insights := insights;
                 nextSteps :=
                   [ "Use " ++ dquote
                     ++ string_or (option_map keyword (hd_error (primary recommended)))
                                  "top keyword"
                     ++ dquote ++ " as your main title keyword";
                     "Incorporate secondary keywords naturally in your description";
                     "Use long-tail keywords in your video script for voice search optimization";
                     "Monitor trending topics for timely content opportunities" ] |}
        | _ =>
          (* not reached: the guard above has thrown for every other value *)
          throw (TypeError "keywords.map is not a function")
        end
  end.

(** ** The router *)

Definition handlePing (id : Id) : Response :=
  Success (PingResult "ok" agentName agentVersion now) id.

Definition handleToolsList (id : Id) : Response :=
  Success
    (ToolsListResult
       [ {| tool_name := "analyzeKeywords";
            tool_description :=
              "Analyze keywords for competition, search volume, and SEO potential";
            tool_required := ["keywords"] |} ])
    id.

(** [`${x}`] for a string that may be [undefined]. *)
Definition interpolate (x : option string) : string :=
  match x with Some s => s | None => "undefined" end.

Definition handleToolCall (params : option Params.t) (id : Id) : M Response :=
  match params with
  | None =>
      throw (TypeError
               "Cannot destructure property 'name' of 'params' as it is undefined.")
  | Some params =>
      let name := Params.name params in
      let args := Params.arguments params in
      if negb (match name with
               | Some n => String.eqb n "analyzeKeywords"
               | None => false
               end)
      then ret (Failure (-32602) ("Unknown tool: " ++ interpolate name) id)
      else
        try_catch
          (result <- analyzeKeywords args ;;
           ret (Success (ToolCallResult result) id))
          (fun error => ret (Failure (-32603) (message_of error) id))
  end.

Definition handleRequest (request : Request.t) : M Response :=
  let method := Request.method request in
  let params := Request.params request in
  let id := Request.id request in
  match method with
  | Some m =>
      if String.eqb m "ping" then ret (handlePing id)
      else if String.eqb m "tools/list" then ret (handleToolsList id)
      else if String.eqb m "tools/call" then handleToolCall params id
      else ret (Failure (-32601) ("Method not found: " ++ interpolate method) id)
  | None => ret (Failure (-32601) ("Method not found: " ++ interpolate method) id)
  end.

(** The [message] listener of [start] (lines 30-45).  Its argument is
    the outcome of [JSON.parse(message.toString())]: a request, or the
    exception the parser threw.  The value returned is the one handed
    to [ws.send]. *)
Definition onMessage (parsed : Result Request.t) : M Response :=
  try_catch
    (request <- lift parsed ;;
     response <- handleRequest request ;;
     ret response)
    (fun error => ret (Failure (-32700) "Parse error" IdNull)).

End Analyzer.

(** * Vocabulary of the statements *)

(** Whether some pattern of a bucket occurs in the keyword. *)
Definition matchesAny (patterns : list string) (keyword : string) : bool :=
  existsb (fun pattern => includes keyword pattern) patterns.

(** The adjustment a bucket contributes. *)
Definition adjustment (matched : bool) (delta : Z) : Z :=
  if matched then delta else 0.

(** The score as the specification words it: the [relevance] field when
    it is present, [0.5] when it is absent. *)
Definition specOpportunityScore (volumeScore competitionScore : Z)
           (relevance : option Q) : Z :=
  round_half_up
    (inject_Z volumeScore * (4 # 10)
     + inject_Z (100 - competitionScore) * (4 # 10)
     + match relevance with Some r => r | None => 1 # 2 end * inject_Z 20)%Q.

(** An item whose relevance is the number zero. *)
Definition zeroRelevanceItem : KeywordData :=
  KwObject {| in_keyword := Some "camera";
              in_category := None;
              in_searchVolume := None;
              in_competition := None;
              in_relevance := Some 0%Q |}.

(** The years that [/202[4-9]/] spells out. *)
Definition years : list string :=
  ["2024"; "2025"; "2026"; "2027"; "2028"; "2029"].

(** The keyword names a trending topic or a year from 2024 to 2029. *)
Definition mentionsTrend (keyword : string) : bool :=
  (matchesAny trendingTopics keyword || matchesAny years keyword)%bool.

Definition mentionsClassic (keyword : string) : bool :=
  (includes keyword "classic" || includes keyword "traditional")%bool.

(** [l] is sorted by non-increasing [key]: every element has a key at
    least as large as the key of every later element. *)
Definition descending {A} (key : A -> Z) (l : list A) : Prop :=
  StronglySorted (fun a b => key b <= key a) l.

(** The elements of [l] whose key is [s], in their order in [l]. *)
Definition withKey {A} (key : A -> Z) (s : Z) (l : list A) : list A :=
  filter (fun a => key a =? s) l.

(** The item carries a keyword, so the scorer accepts it. *)
Definition hasKeyword (keywordData : KeywordData) : Prop :=
  exists text, keywordText keywordData = Ok text.

(** The only exception the scorer raises. *)
Definition missingKeyword : Exn :=
  TypeError "Cannot read properties of undefined (reading 'toLowerCase')".

(** The arguments of a call, for the statements below. *)
Definition argumentsWith (keywords : KeywordsValue)
           (concept targetAudience niche : option string) : Arguments.t :=
  {| Arguments.keywords := keywords;
     Arguments.concept := concept;
     Arguments.targetAudience := targetAudience;
     Arguments.niche := niche |}.

(** The request [{method: "tools/call", params: {name: "analyzeKeywords",
    arguments: args}, id}]. *)
Definition callAnalyzeKeywords (args : Arguments.t) (id : Id) : Request.t :=
  {| Request.method := Some "tools/call";
     Request.params :=
       Some {| Params.name := Some "analyzeKeywords";
               Params.arguments := Some args |};
     Request.id := id |}.

(** The request [{method: "tools/call", id}], without [params]. *)
Definition callWithoutParams (id : Id) : Request.t :=
  {| Request.method := Some "tools/call";
     Request.params := None;
     Request.id := id |}.

(** The number of occurrences of the character [c] in [s]. *)
Fixpoint countChar (c : ascii) (s : string) : nat :=
  match s with
  | EmptyString => 0%nat
  | String d s' => if Ascii.eqb d c then S (countChar c s') else countChar c s'
  end.

(** The item has no [keyword] field. *)
Definition lacksKeyword (keywordData : KeywordData) : Prop :=
  keywordText keywordData = Throw missingKeyword.

(** Scoring the item calls [Math.random]: its lowercased keyword names
    neither a trend nor a classic. *)
Definition needsDraw (keywordData : KeywordData) : bool :=
  match keywordText keywordData with
  | Ok text =>
      (negb (mentionsTrend (toLowerCase text))
       && negb (mentionsClassic (toLowerCase text)))%bool
  | Throw _ => false
  end.

(** The [id] field of a response envelope. *)
Definition responseId (response : Response) : Id :=
  match response with
  | Success _ id => id
  | Failure _ _ id => id
  end.

(** The request [{method: "tools/call", params: {name, arguments}, id}]. *)
Definition callTool (name : option string) (arguments : option Arguments.t)
           (id : Id) : Request.t :=
  {| Request.method := Some "tools/call";
     Request.params :=
       Some {| Params.name := name; Params.arguments := arguments |};
     Request.id := id |}.

(** The request [{method, params, id}]. *)
Definition requestOf (method : option string) (params : option Params.t)
           (id : Id) : Request.t :=
  {| Request.method := method; Request.params := params; Request.id := id |}.

(** The insights of a given type. *)
Definition insightsOfType (type : string) (insights : list Insight.t)
  : list Insight.t :=
  filter (fun i => String.eqb (Insight.type i) type) insights.

(** An object item with the given fields. *)
Definition itemOf (keyword : string) (category searchVolume : option string)
           (relevance : option Q) : KeywordData :=
  KwObject {| in_keyword := Some keyword;
              in_category := category;
              in_searchVolume := searchVolume;
              in_competition := None;
              in_relevance := relevance |}.

(** The keywords of a list that carry a given rating. *)
Definition withRating (rating : Rating.t) (l : list AnalyzedKeyword)
  : list AnalyzedKeyword :=
  filter (fun k => match opportunityRating k, rating with
                   | Rating.excellent, Rating.excellent => true
                   | Rating.good, Rating.good => true
                   | Rating.low, Rating.low => true
                   | _, _ => false
                   end) l.

(** The keyword the first next step names: the keyword of the first
    entry of a sorted list if that entry reaches 70 and its keyword is
    not empty, and the words "top keyword" otherwise. *)
Definition titleKeyword (sorted : list AnalyzedKeyword) : string :=
  match sorted with
  | k :: _ =>
      if 70 <=? opportunityScore k
      then string_or (Some (keyword k)) "top keyword"
      else "top keyword"
  | [] => "top keyword"
  end.

(** A sequence of draws, a timestamp and a batch for the examples. *)
Definition sampleRandom : nat -> Q := fun _ => (1 # 2)%Q.

Definition sampleNow : string := "2025-01-01T00:00:00.000Z".

Definition sampleItems : list KeywordData :=
  [ KwString "camera";
    itemOf "Hidden AI camera tips for beginners"
           (Some "long-tail") (Some "high") (Some (9 # 10)%Q);
    KwString "classic lens review" ].

(** The text consists of ASCII characters only.  On such text
    [toLowerCase] above is [String.prototype.toLowerCase]. *)
Fixpoint isAscii (s : string) : bool :=
  match s with
  | EmptyString => true
  | String c s' => (Nat.ltb (nat_of_ascii c) 128 && isAscii s')%bool
  end.

(** The item carries a keyword, and the keyword is ASCII text. *)
Definition asciiKeyword (keywordData : KeywordData) : Prop :=
  exists text, keywordText keywordData = Ok text /\ isAscii text = true.

(** The relevance of the item is absent or lies between 0 and 1, the
    range the data model gives it. *)
Definition unitRelevance (keywordData : KeywordData) : Prop :=
  forall r, in_relevance (inputDataOf keywordData) = Some r ->
            (0 <= r <= 1)%Q.

(** * Properties *)

(** ** The string built-ins meet their specification *)

Lemma startsWith_spec (s p : string) :
  startsWith s p = true <-> exists b, s = p ++ b.
Proof.
  revert s; induction p as [|c p IH]; intros s; simpl.
  - split; [intros _; now exists s | reflexivity].
  - destruct s as [|d s].
    + split; [discriminate | intros [b Hb]; discriminate].
    + destruct (Ascii.eqb_spec c d) as [->|Hcd].
      * rewrite IH. split; intros [b Hb]; exists b.
        -- now rewrite Hb.
        -- now injection Hb.
      * split; [discriminate | intros [b Hb]; injection Hb; congruence].
Qed.

(** [includes s p] holds exactly when [p] occurs in [s]. *)
Lemma includes_spec (s p : string) :
  includes s p = true <-> exists a b, s = a ++ p ++ b.
Proof.
  induction s as [|c s IH]; simpl.
  - destruct (startsWith "" p) eqn:E.
    + apply startsWith_spec in E. destruct E as [b Hb].
      split; [intros _; now exists "", b | reflexivity].
    + split; [discriminate|].
      intros [a [b Hab]]. destruct a; simpl in Hab.
      * assert (startsWith "" p = true) by (apply startsWith_spec; now exists b).
        congruence.
      * discriminate.
  - destruct (startsWith (String c s) p) eqn:E.
    + apply startsWith_spec in E. destruct E as [b Hb].
      split; [intros _; now exists "", b | reflexivity].
    + rewrite IH. split.
      * intros [a [b Hab]]. exists (String c a), b. simpl. now rewrite Hab.
      * intros [a [b Hab]]. destruct a as [|c' a]; simpl in Hab.
        -- assert (startsWith (String c s) p = true)
             by (apply startsWith_spec; now exists b).
           congruence.
        -- injection Hab as _ Hs. now exists a, b.
Qed.

(** ** The pattern loops *)

(** A loop with [break] applies its update once if any pattern occurs
    and not at all otherwise. *)
Lemma scan_once (patterns : list string) (keyword : string)
      (hit : Z -> Z) (score : Z) :
  scan patterns keyword hit score =
  if matchesAny patterns keyword then hit score else score.
Proof.
  induction patterns as [|pattern rest IH]; simpl.
  - reflexivity.
  - destruct (includes keyword pattern); simpl; [reflexivity | exact IH].
Qed.

Lemma patternScore_sum (keyword : string) :
  patternScore keyword =
  50 + adjustment (matchesAny (highCompetition competitionPatterns) keyword) 15
     + adjustment (matchesAny (mediumCompetition competitionPatterns) keyword) 5
     + adjustment (matchesAny (lowCompetition competitionPatterns) keyword) (-20).
Proof.
  unfold patternScore. rewrite !scan_once. unfold adjustment.
  destruct (matchesAny (highCompetition competitionPatterns) keyword),
           (matchesAny (mediumCompetition competitionPatterns) keyword),
           (matchesAny (lowCompetition competitionPatterns) keyword); lia.
Qed.

Lemma clamp_bounds (score : Z) : 10 <= clamp score <= 95.
Proof. unfold clamp. lia. Qed.

(** ** Running the scorer *)

Section ScorerFacts.

Variable random : nat -> Q.

(** The trend computation never throws and draws at most once. *)
Lemma calculateTrendDirection_returns (keyword : string) (n : nat) :
  exists t n', calculateTrendDirection random keyword n = (Ok t, n')
               /\ (n' = n \/ n' = S n).
Proof.
  unfold calculateTrendDirection, bind, Math_random, ret.
  destruct (_ || _)%bool; [eauto|].
  destruct (_ || _)%bool; [eauto|].
  destruct (Qgtb _ _); [eauto|].
  destruct (Qgtb _ _); eauto.
Qed.

(** What a run of the scorer on an item with a keyword returns. *)
Lemma analyzeKeyword_fields (keywordData : KeywordData) (text : string) (n : nat) :
  keywordText keywordData = Ok text ->
  exists ak n',
    analyzeKeyword random keywordData n = (Ok ak, n')
    /\ calculateTrendDirection random (toLowerCase text) n
       = (Ok (trendDirection (analysis ak)), n')
    /\ keyword ak = text
    /\ category ak = string_or (in_category (inputDataOf keywordData)) "general"
    /\ competitionScore (analysis ak) = computeCompetitionScore (toLowerCase text)
    /\ volumeScore (analysis ak)
       = computeVolumeScore (toLowerCase text)
                            (in_searchVolume (inputDataOf keywordData))
    /\ difficulty (analysis ak)
       = difficultyOf (competitionScore (analysis ak))
    /\ opportunityScore ak
       = computeOpportunityScore (volumeScore (analysis ak))
                                 (competitionScore (analysis ak))
                                 (in_relevance (inputDataOf keywordData))
    /\ recommendation ak
       = getKeywordRecommendation (opportunityScore ak) (category ak).
Proof.
  intros Htext.
  destruct (calculateTrendDirection_returns (toLowerCase text) n)
    as (t & n' & Ht & _).
  unfold analyzeKeyword, bind, lift. rewrite Htext, Ht. unfold ret.
  eexists _, n'. split; [reflexivity|]. simpl. repeat split; assumption.
Qed.

(** An item without a keyword makes the scorer throw before any draw. *)
Lemma analyzeKeyword_throws (keywordData : KeywordData) (e : Exn) (n : nat) :
  keywordText keywordData = Throw e ->
  analyzeKeyword random keywordData n = (Throw e, n).
Proof.
  intros Htext. unfold analyzeKeyword, bind, lift. now rewrite Htext.
Qed.

End ScorerFacts.

(** ** The opportunity score *)

(** The two agree whenever the field is absent or not zero. *)
Lemma opportunityScore_agrees (volumeScore competitionScore : Z)
      (relevance : option Q) :
  (forall r, relevance = Some r -> ~ (r == 0)%Q) ->
  computeOpportunityScore volumeScore competitionScore relevance
  = specOpportunityScore volumeScore competitionScore relevance.
Proof.
  intros Hnz. unfold computeOpportunityScore, specOpportunityScore, number_or.
  destruct relevance as [r|]; [|reflexivity].
  destruct (Qeq_bool r 0) eqn:E; [|reflexivity].
  apply Qeq_bool_iff in E. now destruct (Hnz r eq_refl).
Qed.

(** C1, at the input [{keyword: "camera", relevance: 0}]: the scorer
    returns volume 50, competition 50 and opportunity score 50, that is
    round(20 + 20 + 0.5 * 20), because [relevance || 0.5] replaces the
    zero by the default; the formula of the claim, in which a relevance
    of 0 contributes 0, gives round(20 + 20 + 0) = 40. *)
Theorem C1_zero_relevance_scored_as_default (random : nat -> Q) (n : nat) :
  exists ak n',
    analyzeKeyword random zeroRelevanceItem n = (Ok ak, n')
    /\ volumeScore (analysis ak) = 50
    /\ competitionScore (analysis ak) = 50
    /\ relevance ak = (1 # 2)%Q
    /\ opportunityScore ak = 50
    /\ specOpportunityScore (volumeScore (analysis ak))
                            (competitionScore (analysis ak))
                            (in_relevance (inputDataOf zeroRelevanceItem)) = 40.
Proof.
  destruct (calculateTrendDirection_returns random (toLowerCase "camera") n)
    as (t & n' & Ht & _).
  eexists _, n'. split.
  - unfold analyzeKeyword, bind, lift. simpl keywordText. cbv iota beta.
    rewrite Ht. reflexivity.
  - repeat split; vm_compute; reflexivity.
Qed.

(** ** The competition score *)

(** C2: for every lowercased keyword, the score after the three pattern
    loops is the base 50 plus one adjustment per bucket that has a term
    occurring in the keyword (+15, +5, -20), whatever the number of
    terms of that bucket that occur, and the competition score is that
    sum after the long-tail relief and the clamp; and for every item
    with an ASCII keyword the reported competition score is that value
    at the lowercased keyword. *)
Theorem C2_one_adjustment_per_bucket (random : nat -> Q) :
  (forall kw,
     let adjusted :=
       50 + adjustment (matchesAny (highCompetition competitionPatterns) kw) 15
          + adjustment (matchesAny (mediumCompetition competitionPatterns) kw) 5
          + adjustment (matchesAny (lowCompetition competitionPatterns) kw) (-20) in
     patternScore kw = adjusted
     /\ computeCompetitionScore kw = clamp (longTailRelief kw adjusted))
  /\ (forall keywordData text n,
        keywordText keywordData = Ok text ->
        isAscii text = true ->
        let kw := toLowerCase text in
        let adjusted :=
          50 + adjustment (matchesAny (highCompetition competitionPatterns) kw) 15
             + adjustment (matchesAny (mediumCompetition competitionPatterns) kw) 5
             + adjustment (matchesAny (lowCompetition competitionPatterns) kw) (-20) in
        exists ak n',
          analyzeKeyword random keywordData n = (Ok ak, n')
          /\ competitionScore (analysis ak) = clamp (longTailRelief kw adjusted)).
Proof.
  split.
  - intros kw adjusted. split.
    + apply patternScore_sum.
    + unfold computeCompetitionScore. now rewrite patternScore_sum.
  - intros keywordData text n Htext _ kw adjusted.
    destruct (analyzeKeyword_fields random keywordData text n Htext)
      as (ak & n' & Hrun & _ & _ & _ & Hc & _).
    exists ak, n'. split; [exact Hrun|].
    rewrite Hc. unfold computeCompetitionScore. fold kw.
    now rewrite patternScore_sum.
Qed.

(** "best camera tutorial tips" has two high terms and one medium term:
    one +15 and one +5. *)
Lemma C2_witness :
  patternScore (toLowerCase "Best camera tutorial tips") = 50 + 15 + 5 + 0
  /\ exists ak n',
       analyzeKeyword (fun _ => 1 # 2)%Q (KwString "Best camera tutorial tips") 0%nat
       = (Ok ak, n')
       /\ competitionScore (analysis ak) = 55.
Proof.
  split.
  - exact (proj1 (proj1 (C2_one_adjustment_per_bucket (fun _ => 1 # 2)%Q)
                        (toLowerCase "Best camera tutorial tips"))).
  - exact (proj2 (C2_one_adjustment_per_bucket (fun _ => 1 # 2)%Q)
                 (KwString "Best camera tutorial tips")
                 "Best camera tutorial tips" 0%nat eq_refl eq_refl).
Defined.

(** C4: every analyzed keyword has a competition score between 10 and
    95, and an item with a keyword always yields an analyzed keyword. *)
Theorem C4_competitionScore_clamped (random : nat -> Q)
        (keywordData : KeywordData) (text : string) (n : nat) :
  keywordText keywordData = Ok text ->
  exists ak n',
    analyzeKeyword random keywordData n = (Ok ak, n')
    /\ 10 <= competitionScore (analysis ak) <= 95.
Proof.
  intros Htext.
  destruct (analyzeKeyword_fields random keywordData text n Htext)
    as (ak & n' & Hrun & _ & _ & _ & Hc & _).
  exists ak, n'. split; [exact Hrun|].
  rewrite Hc. apply clamp_bounds.
Qed.

Lemma C4_witness :
  exists ak n',
    analyzeKeyword (fun _ => 1 # 2)%Q
                   (KwString "hidden secret advanced mistakes nobody mentions") 0%nat
    = (Ok ak, n')
    /\ 10 <= competitionScore (analysis ak) <= 95.
Proof.
  exact (C4_competitionScore_clamped
           (fun _ => 1 # 2)%Q
           (KwString "hidden secret advanced mistakes nobody mentions")
           "hidden secret advanced mistakes nobody mentions" 0%nat eq_refl).
Defined.

(** ** The trend direction *)

Lemma existsb_orb {A} (f g : A -> bool) (l : list A) :
  existsb (fun x => f x || g x)%bool l = (existsb f l || existsb g l)%bool.
Proof.
  induction l as [|x l IH]; simpl; [reflexivity|].
  rewrite IH. destruct (f x), (g x), (existsb f l), (existsb g l); reflexivity.
Qed.

Ltac split_ascii c :=
  destruct c as [[] [] [] [] [] [] [] []]; try reflexivity.

Lemma year_here_years (s : string) :
  year_here s = existsb (startsWith s) years.
Proof.
  destruct s as [|a s]; [reflexivity|].
  split_ascii a.
  destruct s as [|b s]; [reflexivity|].
  split_ascii b.
  destruct s as [|c s]; [reflexivity|].
  split_ascii c.
  destruct s as [|d s]; [reflexivity|].
  split_ascii d.
Qed.

(** The regular expression matches exactly the keywords that contain one
    of the years 2024 to 2029. *)
Lemma regex_year_test_years (s : string) :
  regex_year_test s = matchesAny years s.
Proof.
  unfold matchesAny.
  induction s as [|c s IH].
  - reflexivity.
  - cbn [regex_year_test]. rewrite year_here_years.
    transitivity (existsb (fun p => startsWith (String c s) p || includes s p)%bool
                          years).
    + rewrite existsb_orb.
      change (existsb (includes s) years)
        with (existsb (fun pattern => includes s pattern) years).
      rewrite <- IH.
      destruct (existsb (startsWith (String c s)) years); reflexivity.
    + clear IH. induction years as [|p ps IHp]; [reflexivity|].
      cbn [existsb includes]. rewrite IHp.
      destruct (startsWith (String c s) p); reflexivity.
Qed.

Ltac q_contra :=
  exfalso;
  match goal with
  | Hle : (?x <= ?y)%Q, Hlt : (?y < ?x)%Q |- _ => exact (Qle_not_lt _ _ Hle Hlt)
  | Hn : ~ (?y < ?x)%Q, Hlt : (?y < ?x)%Q |- _ => exact (Hn Hlt)
  end.

Section TrendCases.

Variable random : nat -> Q.

(** The three cases of [calculateTrendDirection], for any keyword. *)
Lemma calculateTrendDirection_cases (kw : string) (n : nat)
      (trend : Trend.t) (n' : nat) :
  calculateTrendDirection random kw n = (Ok trend, n') ->
  (mentionsTrend kw = true -> trend = Trend.rising /\ n' = n)
  /\ (mentionsTrend kw = false -> mentionsClassic kw = true ->
      trend = Trend.stable /\ n' = n)
  /\ (mentionsTrend kw = false -> mentionsClassic kw = false ->
      n' = S n
      /\ let r := random n in
         ((7 # 10 < r)%Q -> trend = Trend.rising)
         /\ (~ (7 # 10 < r)%Q -> (3 # 10 < r)%Q -> trend = Trend.stable)
         /\ (~ (3 # 10 < r)%Q -> trend = Trend.declining)).
Proof.
  cbv zeta.
  unfold calculateTrendDirection, mentionsTrend, mentionsClassic.
  rewrite regex_year_test_years. fold (matchesAny trendingTopics kw).
  destruct (matchesAny trendingTopics kw || matchesAny years kw)%bool.
  { unfold ret. intros [= <- <-]. repeat split; discriminate. }
  destruct (includes kw "classic" || includes kw "traditional")%bool.
  { unfold ret. intros [= <- <-]. repeat split; discriminate. }
  unfold bind, Math_random, ret, Qgtb.
  destruct (Qle_bool (random n) (7 # 10)) eqn:E7; cbn [negb].
  - apply Qle_bool_iff in E7.
    destruct (Qle_bool (random n) (3 # 10)) eqn:E3; cbn [negb].
    + apply Qle_bool_iff in E3. intros [= <- <-].
      repeat split; try discriminate; intros; try reflexivity; q_contra.
    + assert (H3 : (3 # 10 < random n)%Q).
      { apply Qnot_le_lt. intros H. apply Qle_bool_iff in H. congruence. }
      intros [= <- <-].
      repeat split; try discriminate; intros; try reflexivity; q_contra.
  - assert (H7 : (7 # 10 < random n)%Q).
    { apply Qnot_le_lt. intros H. apply Qle_bool_iff in H. congruence. }
    assert (H3 : (3 # 10 < random n)%Q).
    { eapply Qlt_trans; [|exact H7]. reflexivity. }
    intros [= <- <-].
    repeat split; try discriminate; intros; try reflexivity; q_contra.
Qed.

End TrendCases.

(** C8: for every lowercased keyword, [calculateTrendDirection] returns
    rising, without a draw, when the keyword names a trending topic or
    a year 2024-2029; otherwise stable, without a draw, when it
    contains "classic" or "traditional"; otherwise it draws exactly one
    value [r] and returns rising if r > 0.7, stable if r > 0.3 and
    declining otherwise.  For every item with an ASCII keyword, the
    trend of the analyzed keyword is the one so determined by the
    lowercased keyword. *)
Theorem C8_trendDirection (random : nat -> Q) :
  (forall kw n,
     exists trend n',
       calculateTrendDirection random kw n = (Ok trend, n')
       /\ (mentionsTrend kw = true -> trend = Trend.rising /\ n' = n)
       /\ (mentionsTrend kw = false -> mentionsClassic kw = true ->
           trend = Trend.stable /\ n' = n)
       /\ (mentionsTrend kw = false -> mentionsClassic kw = false ->
           n' = S n
           /\ let r := random n in
              ((7 # 10 < r)%Q -> trend = Trend.rising)
              /\ (~ (7 # 10 < r)%Q -> (3 # 10 < r)%Q -> trend = Trend.stable)
              /\ (~ (3 # 10 < r)%Q -> trend = Trend.declining)))
  /\ (forall keywordData text n,
        keywordText keywordData = Ok text ->
        isAscii text = true ->
        let kw := toLowerCase text in
        exists ak n',
          analyzeKeyword random keywordData n = (Ok ak, n')
          /\ let trend := trendDirection (analysis ak) in
             (mentionsTrend kw = true -> trend = Trend.rising /\ n' = n)
             /\ (mentionsTrend kw = false -> mentionsClassic kw = true ->
                 trend = Trend.stable /\ n' = n)
             /\ (mentionsTrend kw = false -> mentionsClassic kw = false ->
                 n' = S n
                 /\ let r := random n in
                    ((7 # 10 < r)%Q -> trend = Trend.rising)
                    /\ (~ (7 # 10 < r)%Q -> (3 # 10 < r)%Q ->
                        trend = Trend.stable)
                    /\ (~ (3 # 10 < r)%Q -> trend = Trend.declining))).
Proof.
  split.
  - intros kw n.
    destruct (calculateTrendDirection_returns random kw n)
      as (trend & n' & Hrun & _).
    exists trend, n'. split; [exact Hrun|].
    exact (calculateTrendDirection_cases random kw n trend n' Hrun).
  - intros keywordData text n Htext _ kw.
    destruct (analyzeKeyword_fields random keywordData text n Htext)
      as (ak & n' & Hrun & Htrend & _).
    exists ak, n'. split; [exact Hrun|].
    exact (calculateTrendDirection_cases random kw n _ n' Htrend).
Qed.

(** "AI tools" names a trending topic: rising, no draw. *)
Lemma C8_witness :
  exists ak n',
    analyzeKeyword (fun _ => 1 # 2)%Q (KwString "AI tools") 0%nat = (Ok ak, n')
    /\ trendDirection (analysis ak) = Trend.rising /\ n' = 0%nat.
Proof.
  destruct (proj2 (C8_trendDirection (fun _ => 1 # 2)%Q)
                  (KwString "AI tools") "AI tools" 0%nat eq_refl eq_refl)
    as (ak & n' & Hrun & Hrising & _).
  exists ak, n'. split; [exact Hrun|]. apply Hrising. reflexivity.
Defined.

(** ** Determinism of the scores *)

(** C9: two runs of the scorer on the same item, whatever the random
    values and the number of earlier draws, agree on the competition
    score, the volume score, the opportunity score, the difficulty and
    the recommendation; and a run throws only if the other one throws
    the same exception. *)
Theorem C9_scores_deterministic (random1 random2 : nat -> Q)
        (keywordData : KeywordData) (n1 n2 : nat) :
  match fst (analyzeKeyword random1 keywordData n1),
        fst (analyzeKeyword random2 keywordData n2) with
  | Ok a, Ok b =>
      competitionScore (analysis a) = competitionScore (analysis b)
      /\ volumeScore (analysis a) = volumeScore (analysis b)
      /\ opportunityScore a = opportunityScore b
      /\ difficulty (analysis a) = difficulty (analysis b)
      /\ recommendation a = recommendation b
  | Throw e1, Throw e2 => e1 = e2
  | _, _ => False
  end.
Proof.
  destruct (keywordText keywordData) as [text|e] eqn:Htext.
  - destruct (analyzeKeyword_fields random1 keywordData text n1 Htext)
      as (a & n1' & Ha & _ & _ & Hcat1 & Hc1 & Hv1 & Hd1 & Ho1 & Hr1).
    destruct (analyzeKeyword_fields random2 keywordData text n2 Htext)
      as (b & n2' & Hb & _ & _ & Hcat2 & Hc2 & Hv2 & Hd2 & Ho2 & Hr2).
    rewrite Ha, Hb. cbn [fst].
    assert (Hc : competitionScore (analysis a) = competitionScore (analysis b))
      by congruence.
    assert (Hv : volumeScore (analysis a) = volumeScore (analysis b))
      by congruence.
    assert (Ho : opportunityScore a = opportunityScore b) by congruence.
    repeat split; congruence.
  - rewrite !(analyzeKeyword_throws _ _ e) by assumption. reflexivity.
Qed.

(** ** Sorting by a descending key *)

Section StableSort.

Context {A : Type}.

(** The sort key; the comparator is [(a, b) => key(b) - key(a)]. *)
Variable key : A -> Z.

Let compare (a b : A) : Z := key b - key a.

Lemma sort_insert_perm (x : A) (l : list A) :
  Permutation (x :: l) (sort_insert compare x l).
Proof.
  induction l as [|y rest IH]; simpl; [reflexivity|].
  destruct (compare x y <=? 0); [reflexivity|].
  rewrite perm_swap. now constructor.
Qed.

Lemma sort_insert_descending (x : A) (l : list A) :
  descending key l -> descending key (sort_insert compare x l).
Proof.
  unfold descending.
  induction l as [|y rest IH]; intros Hl; simpl.
  - repeat constructor.
  - apply StronglySorted_inv in Hl. destruct Hl as [Hrest Hy].
    destruct (Z.leb_spec (compare x y) 0) as [Hle|Hgt]; unfold compare in *.
    + constructor; [now constructor|].
      constructor; [lia|].
      eapply Forall_impl; [|exact Hy]. simpl. intros; lia.
    + constructor; [now apply IH|].
      eapply Permutation_Forall; [apply sort_insert_perm|].
      constructor; [lia | exact Hy].
Qed.

(** Insertion never moves an element past one with the same key. *)
Lemma sort_insert_withKey (s : Z) (x : A) (l : list A) :
  withKey key s (sort_insert compare x l) = withKey key s (x :: l).
Proof.
  unfold withKey.
  induction l as [|y rest IH]; simpl; [reflexivity|].
  destruct (Z.leb_spec (compare x y) 0) as [Hle|Hgt]; unfold compare in *.
  - reflexivity.
  - simpl. rewrite IH. simpl.
    destruct (Z.eqb_spec (key x) s), (Z.eqb_spec (key y) s);
      try reflexivity; lia.
Qed.

Lemma Array_sort_perm (l : list A) : Permutation l (Array_sort compare l).
Proof.
  induction l as [|x l IH]; simpl; [constructor|].
  etransitivity; [|apply sort_insert_perm]. now constructor.
Qed.

Lemma Array_sort_descending (l : list A) : descending key (Array_sort compare l).
Proof.
  induction l as [|x l IH]; simpl.
  - constructor.
  - now apply sort_insert_descending.
Qed.

(** Stability: the elements that share a key keep their input order. *)
Lemma Array_sort_stable (s : Z) (l : list A) :
  withKey key s (Array_sort compare l) = withKey key s l.
Proof.
  induction l as [|x l IH]; simpl; [reflexivity|].
  rewrite sort_insert_withKey. unfold withKey in *. simpl. now rewrite IH.
Qed.

Lemma withKey_head (x : A) (l : list A) :
  withKey key (key x) (x :: l) = x :: withKey key (key x) l.
Proof. unfold withKey. simpl. now rewrite Z.eqb_refl. Qed.

Lemma withKey_In (s : Z) (x : A) (l : list A) :
  In x (withKey key s l) <-> In x l /\ key x = s.
Proof. unfold withKey. rewrite filter_In, Z.eqb_eq. reflexivity. Qed.

(** Two descending lists that agree on every key class are equal: the
    result of a stable sort is determined by its specification. *)
Lemma descending_unique (l1 l2 : list A) :
  descending key l1 -> descending key l2 ->
  (forall s, withKey key s l1 = withKey key s l2) ->
  l1 = l2.
Proof.
  unfold descending. revert l2.
  induction l1 as [|x l1 IH]; intros l2 H1 H2 Hkeys.
  - destruct l2 as [|y l2]; [reflexivity|].
    specialize (Hkeys (key y)). rewrite withKey_head in Hkeys. discriminate.
  - destruct l2 as [|y l2].
    + specialize (Hkeys (key x)). rewrite withKey_head in Hkeys. discriminate.
    + apply StronglySorted_inv in H1. destruct H1 as [H1 Hx].
      apply StronglySorted_inv in H2. destruct H2 as [H2 Hy].
      rewrite Forall_forall in Hx, Hy.
      assert (Hxy : key x <= key y).
      { assert (Hin : In x (withKey key (key x) (y :: l2))).
        { rewrite <- Hkeys, withKey_head. now left. }
        apply withKey_In in Hin. destruct Hin as [[->|Hin] _]; [lia|].
        now apply Hy. }
      assert (Hyx : key y <= key x).
      { assert (Hin : In y (withKey key (key y) (x :: l1))).
        { rewrite Hkeys, withKey_head. now left. }
        apply withKey_In in Hin. destruct Hin as [[->|Hin] _]; [lia|].
        now apply Hx. }
      assert (Hk : key x = key y) by lia.
      assert (Hhead := Hkeys (key x)).
      rewrite withKey_head, Hk, withKey_head in Hhead.
      injection Hhead as -> _.
      f_equal. apply IH; try assumption.
      intros s. specialize (Hkeys s). unfold withKey in *. simpl in Hkeys.
      destruct (key y =? s); [now injection Hkeys | exact Hkeys].
Qed.

(** Any stable sort by this comparator returns what [Array_sort] returns. *)
Lemma sort_unique (l sorted : list A) :
  descending key sorted ->
  (forall s, withKey key s sorted = withKey key s l) ->
  sorted = Array_sort compare l.
Proof.
  intros Hsorted Hstable. apply descending_unique.
  - exact Hsorted.
  - apply Array_sort_descending.
  - intros s. now rewrite Hstable, Array_sort_stable.
Qed.

End StableSort.

(** ** Running the batch analyzer *)

Lemma keywordText_throw (keywordData : KeywordData) (e : Exn) :
  keywordText keywordData = Throw e -> e = missingKeyword.
Proof.
  destruct keywordData as [s|o]; simpl; [discriminate|].
  destruct (in_keyword o); [discriminate|]. now intros [= <-].
Qed.

Section BatchFacts.

Variable random : nat -> Q.
Variable now : string.

(** Mapping the scorer over items that all carry a keyword returns the
    analyzed keywords, one per item and in the order of the items. *)
Lemma mapM_analyzeKeyword_returns (items : list KeywordData) (n : nat) :
  Forall hasKeyword items ->
  exists analyzed n',
    mapM (analyzeKeyword random) items n = (Ok analyzed, n')
    /\ Forall2 (fun item ak => keywordText item = Ok (keyword ak)
                               /\ exists m m',
                                    analyzeKeyword random item m = (Ok ak, m'))
               items analyzed.
Proof.
  intros Hall. revert n.
  induction Hall as [|item items [text Htext] _ IH]; intros n.
  - exists [], n. split; [reflexivity | constructor].
  - destruct (analyzeKeyword_fields random item text n Htext)
      as (ak & n1 & Hrun & _ & Hkw & _).
    destruct (IH n1) as (analyzed & n' & Hrest & Hall2).
    exists (ak :: analyzed), n'. split.
    + cbn [mapM]. unfold bind at 1. rewrite Hrun.
      unfold bind at 1. rewrite Hrest. reflexivity.
    + constructor; [|exact Hall2]. split; [congruence | eauto].
Qed.

(** If the mapping throws, it throws the scorer's exception. *)
Lemma mapM_analyzeKeyword_throws (items : list KeywordData) (n n' : nat)
      (e : Exn) :
  mapM (analyzeKeyword random) items n = (Throw e, n') -> e = missingKeyword.
Proof.
  revert n. induction items as [|item items IH]; intros n; cbn [mapM].
  - discriminate.
  - unfold bind at 1.
    destruct (keywordText item) as [text|e0] eqn:Htext.
    + destruct (analyzeKeyword_fields random item text n Htext)
        as (ak & n1 & Hrun & _).
      rewrite Hrun. unfold bind at 1.
      destruct (mapM (analyzeKeyword random) items n1) as [[ys|e1] n2] eqn:Hrest.
      * discriminate.
      * intros [= <- <-]. eapply IH; eassumption.
    + rewrite (analyzeKeyword_throws random item e0 n Htext).
      intros [= <- <-]. eapply keywordText_throw; eassumption.
Qed.

(** The report of a batch whose items were all scored. *)
Lemma analyzeKeywords_report (items : list KeywordData)
      (concept targetAudience niche : option string)
      (mapped : list AnalyzedKeyword) (n n' : nat) :
  mapM (analyzeKeyword random) items n = (Ok mapped, n') ->
  exists report,
    analyzeKeywords random now
      (Some (argumentsWith (Array items) concept targetAudience niche)) n
    = (Ok report, n')
    /\ allKeywords report = Array_sort byOpportunity mapped
    /\ totalAnalyzed report = List.length (allKeywords report)
    /\ topOpportunities (summary report)
       = List.length (topKeywords (allKeywords report))
    /\ goodOpportunities (summary report)
       = List.length (goodKeywords (allKeywords report))
    /\ lowPriority (summary report)
       = List.length (lowPriorityKeywords (allKeywords report))
    /\ averageOpportunityScore (summary report)
       = Math_round
           (js_div
              (inject_Z (fold_left (fun sum k => sum + opportunityScore k)
                                   (allKeywords report) 0))
              (inject_Z (Z.of_nat (List.length (allKeywords report))))).
Proof.
  intros Hmap. unfold analyzeKeywords, argumentsWith.
  cbn [Arguments.keywords truthy Array_isArray negb orb].
  unfold bind. rewrite Hmap. unfold ret.
  eexists. split; [reflexivity|]. cbn. repeat split; reflexivity.
Qed.

End BatchFacts.

(** ** Tiers of a descending list *)

Lemma filter_none {A} (f : A -> bool) (l : list A) :
  Forall (fun a => f a = false) l -> filter f l = [].
Proof.
  induction 1 as [|a l Ha _ IH]; simpl; [reflexivity|]. now rewrite Ha.
Qed.

(** A list sorted by descending score is its top tier, followed by its
    good tier, followed by its low tier. *)
Lemma tiers_concat (l : list AnalyzedKeyword) :
  descending opportunityScore l ->
  l = (topKeywords l ++ goodKeywords l ++ lowPriorityKeywords l)%list.
Proof.
  unfold descending, topKeywords, goodKeywords, lowPriorityKeywords.
  induction l as [|x l IH]; intros Hl; [reflexivity|].
  apply StronglySorted_inv in Hl. destruct Hl as [Hl Hx].
  specialize (IH Hl). cbn [filter].
  destruct (Z.leb_spec 70 (opportunityScore x)) as [H70|H70].
  - replace (opportunityScore x <? 70) with false by (symmetry; lia).
    replace (opportunityScore x <? 50) with false by (symmetry; lia).
    rewrite andb_false_r. cbn [app]. now rewrite <- IH.
  - replace (opportunityScore x <? 70) with true by (symmetry; lia).
    rewrite andb_true_r.
    assert (Htop : filter (fun k => 70 <=? opportunityScore k) l = []).
    { apply filter_none. eapply Forall_impl; [|exact Hx].
      cbv beta. intros; lia. }
    rewrite Htop in *. cbn [app] in *.
    destruct (Z.leb_spec 50 (opportunityScore x)) as [H50|H50].
    + replace (opportunityScore x <? 50) with false by (symmetry; lia).
      cbn [app]. now rewrite <- IH.
    + replace (opportunityScore x <? 50) with true by (symmetry; lia).
      assert (Hgood : filter (fun k => (50 <=? opportunityScore k)
                                       && (opportunityScore k <? 70))%bool l = []).
      { apply filter_none. eapply Forall_impl; [|exact Hx].
        cbv beta. intros a Ha.
        replace (50 <=? opportunityScore a) with false by (symmetry; lia).
        reflexivity. }
      rewrite Hgood in *. cbn [app] in *. now rewrite <- IH.
Qed.

Lemma topKeywords_In (k : AnalyzedKeyword) (l : list AnalyzedKeyword) :
  In k (topKeywords l) <-> In k l /\ 70 <= opportunityScore k.
Proof. unfold topKeywords. rewrite filter_In, Z.leb_le. reflexivity. Qed.

Lemma goodKeywords_In (k : AnalyzedKeyword) (l : list AnalyzedKeyword) :
  In k (goodKeywords l) <-> In k l /\ 50 <= opportunityScore k < 70.
Proof.
  unfold goodKeywords. rewrite filter_In, andb_true_iff, Z.leb_le, Z.ltb_lt.
  reflexivity.
Qed.

Lemma lowPriorityKeywords_In (k : AnalyzedKeyword) (l : list AnalyzedKeyword) :
  In k (lowPriorityKeywords l) <-> In k l /\ opportunityScore k < 50.
Proof. unfold lowPriorityKeywords. rewrite filter_In, Z.ltb_lt. reflexivity. Qed.

(** ** The report *)

Section ReportFacts.

Variable random : nat -> Q.
Variable now : string.

(** C3: for a batch whose items all carry a keyword, [allKeywords] is a
    rearrangement of the analyzed keywords (taken in the order of the
    items) that is sorted by non-increasing opportunity score, and for
    every score the keywords with that score appear in [allKeywords] in
    the order of their items. *)
Theorem C3_allKeywords_sorted_stable (items : list KeywordData)
        (concept targetAudience niche : option string) (n : nat) :
  Forall hasKeyword items ->
  exists analyzed report n',
    mapM (analyzeKeyword random) items n = (Ok analyzed, n')
    /\ Forall2 (fun item ak => keywordText item = Ok (keyword ak)) items analyzed
    /\ analyzeKeywords random now
         (Some (argumentsWith (Array items) concept targetAudience niche)) n
       = (Ok report, n')
    /\ Permutation analyzed (allKeywords report)
    /\ descending opportunityScore (allKeywords report)
    /\ forall s, withKey opportunityScore s (allKeywords report)
                 = withKey opportunityScore s analyzed.
Proof.
  intros Hall.
  destruct (mapM_analyzeKeyword_returns random items n Hall)
    as (analyzed & n' & Hmap & Hitems).
  destruct (analyzeKeywords_report random now items concept targetAudience niche
                                   analyzed n n' Hmap)
    as (report & Hrun & Hsorted & _).
  exists analyzed, report, n'. split; [exact Hmap|]. split.
  { eapply Forall2_impl; [|exact Hitems]. cbv beta. now intros item ak [H _]. }
  split; [exact Hrun|]. rewrite Hsorted. unfold byOpportunity. split; [|split].
  - apply (Array_sort_perm opportunityScore).
  - apply (Array_sort_descending opportunityScore).
  - intros s. apply (Array_sort_stable opportunityScore).
Qed.

(** C5: for a batch whose items all carry a keyword, the three counts of
    the summary are the sizes of the tiers [>= 70], [50 <= . < 70] and
    [< 50] of [allKeywords], they add up to [totalAnalyzed], which is
    the number of items, no keyword belongs to two tiers, and
    [allKeywords] is the three tiers one after the other. *)
Theorem C5_tiers_partition (items : list KeywordData)
        (concept targetAudience niche : option string) (n : nat) :
  Forall hasKeyword items ->
  exists report n',
    analyzeKeywords random now
      (Some (argumentsWith (Array items) concept targetAudience niche)) n
    = (Ok report, n')
    /\ let all := allKeywords report in
       let top := topKeywords all in
       let good := goodKeywords all in
       let low := lowPriorityKeywords all in
       totalAnalyzed report = List.length items
       /\ topOpportunities (summary report) = List.length top
       /\ goodOpportunities (summary report) = List.length good
       /\ lowPriority (summary report) = List.length low
       /\ (List.length top + List.length good + List.length low
           = totalAnalyzed report)%nat
       /\ all = (top ++ good ++ low)%list
       /\ (forall k, In k top <-> In k all /\ 70 <= opportunityScore k)
       /\ (forall k, In k good <-> In k all /\ 50 <= opportunityScore k < 70)
       /\ (forall k, In k low <-> In k all /\ opportunityScore k < 50)
       /\ (forall k, ~ (In k top /\ In k good))
       /\ (forall k, ~ (In k top /\ In k low))
       /\ (forall k, ~ (In k good /\ In k low)).
Proof.
  intros Hall.
  destruct (mapM_analyzeKeyword_returns random items n Hall)
    as (analyzed & n' & Hmap & Hitems).
  destruct (analyzeKeywords_report random now items concept targetAudience niche
                                   analyzed n n' Hmap)
    as (report & Hrun & Hsorted & Htotal & Htop & Hgood & Hlow & _).
  exists report, n'. split; [exact Hrun|]. cbv zeta.
  assert (Hdesc : descending opportunityScore (allKeywords report)).
  { rewrite Hsorted. apply (Array_sort_descending opportunityScore). }
  assert (Hcat := tiers_concat _ Hdesc).
  assert (Hlen : List.length (allKeywords report) = List.length items).
  { rewrite Hsorted. unfold byOpportunity.
    rewrite <- (Permutation_length (Array_sort_perm opportunityScore analyzed)).
    symmetry. eapply Forall2_length; eassumption. }
  split; [congruence|]. split; [exact Htop|]. split; [exact Hgood|].
  split; [exact Hlow|]. split.
  { rewrite Htotal. rewrite Hcat at 4. rewrite !length_app. lia. }
  split; [exact Hcat|].
  split; [intros k; apply topKeywords_In|].
  split; [intros k; apply goodKeywords_In|].
  split; [intros k; apply lowPriorityKeywords_In|].
  split; [|split]; intros k [H1 H2].
  - apply topKeywords_In in H1. apply goodKeywords_In in H2. lia.
  - apply topKeywords_In in H1. apply lowPriorityKeywords_In in H2. lia.
  - apply goodKeywords_In in H1. apply lowPriorityKeywords_In in H2. lia.
Qed.

(** C6, at the input [{keywords: []}]: the call does not throw, the
    report counts zero keywords, and its average opportunity score is
    [Math.round(0 / 0)], which is [NaN]: the division by the batch size
    is made without a test for the empty batch. *)
Theorem C6_empty_batch_average_is_NaN
        (concept targetAudience niche : option string) (n : nat) :
  exists report,
    analyzeKeywords random now
      (Some (argumentsWith (Array []) concept targetAudience niche)) n
    = (Ok report, n)
    /\ totalAnalyzed report = 0%nat
    /\ averageOpportunityScore (summary report) = Math_round (js_div 0 0)
    /\ averageOpportunityScore (summary report) = NaN.
Proof.
  eexists. split; [reflexivity|]. cbn. repeat split; reflexivity.
Qed.

End ReportFacts.

(** Three items with scores 50, 58 and 50: the item scored 58 comes
    first and the two items scored 50 keep their order. *)
Example allKeywords_order :
  exists report n',
    analyzeKeywords (fun _ => 1 # 2)%Q "2025-01-01T00:00:00.000Z"
      (Some (argumentsWith
               (Array [KwString "camera"; KwString "hidden lens"; KwString "lens"])
               None None None)) 0%nat
    = (Ok report, n')
    /\ map keyword (allKeywords report) = ["hidden lens"; "camera"; "lens"]
    /\ map opportunityScore (allKeywords report) = [58; 50; 50].
Proof. eexists _, _. split; [reflexivity|]. split; reflexivity. Qed.

Lemma C3_witness :
  exists analyzed report n',
    mapM (analyzeKeyword (fun _ => 1 # 2)%Q)
         [KwString "camera"; KwString "hidden lens"; KwString "lens"] 0%nat
    = (Ok analyzed, n')
    /\ Forall2 (fun item ak => keywordText item = Ok (keyword ak))
               [KwString "camera"; KwString "hidden lens"; KwString "lens"]
               analyzed
    /\ analyzeKeywords (fun _ => 1 # 2)%Q "2025-01-01T00:00:00.000Z"
         (Some (argumentsWith
                  (Array [KwString "camera"; KwString "hidden lens"; KwString "lens"])
                  None None None)) 0%nat
       = (Ok report, n')
    /\ Permutation analyzed (allKeywords report)
    /\ descending opportunityScore (allKeywords report)
    /\ forall s, withKey opportunityScore s (allKeywords report)
                 = withKey opportunityScore s analyzed.
Proof.
  apply (C3_allKeywords_sorted_stable
           (fun _ => 1 # 2)%Q "2025-01-01T00:00:00.000Z"
           [KwString "camera"; KwString "hidden lens"; KwString "lens"]
           None None None 0%nat).
  repeat constructor; eexists; reflexivity.
Defined.

Lemma C5_witness :
  exists report n',
    analyzeKeywords (fun _ => 1 # 2)%Q "2025-01-01T00:00:00.000Z"
      (Some (argumentsWith
               (Array [KwString "camera"; KwString "hidden lens"; KwString "lens"])
               None None None)) 0%nat
    = (Ok report, n')
    /\ totalAnalyzed report = 3%nat
    /\ (topOpportunities (summary report) + goodOpportunities (summary report)
        + lowPriority (summary report) = totalAnalyzed report)%nat.
Proof.
  destruct (C5_tiers_partition
              (fun _ => 1 # 2)%Q "2025-01-01T00:00:00.000Z"
              [KwString "camera"; KwString "hidden lens"; KwString "lens"]
              None None None 0%nat)
    as (report & n' & Hrun & Htotal & Htop & Hgood & Hlow & Hsum & _).
  - repeat constructor; eexists; reflexivity.
  - exists report, n'. split; [exact Hrun|]. split; [exact Htotal|].
    rewrite Htop, Hgood, Hlow. exact Hsum.
Defined.

(** ** The router *)

Section RouterFacts.

Variable random : nat -> Q.
Variable now : string.

(** A call of the tool is answered by what [handleToolCall] makes of the
    outcome of [analyzeKeywords], and nothing is thrown to the listener. *)
Lemma call_response (args : Arguments.t) (id : Id) (n : nat) :
  onMessage random now (Ok (callAnalyzeKeywords args id)) n
  = handleRequest random now (callAnalyzeKeywords args id) n
  /\ handleRequest random now (callAnalyzeKeywords args id) n
     = match analyzeKeywords random now (Some args) n with
       | (Ok report, n') => (Ok (Success (ToolCallResult report) id), n')
       | (Throw e, n') => (Ok (Failure (-32603) (message_of e) id), n')
       end.
Proof.
  assert (Hcall :
    handleRequest random now (callAnalyzeKeywords args id) n
    = match analyzeKeywords random now (Some args) n with
      | (Ok report, n') => (Ok (Success (ToolCallResult report) id), n')
      | (Throw e, n') => (Ok (Failure (-32603) (message_of e) id), n')
      end).
  { unfold handleRequest, callAnalyzeKeywords.
    cbn [Request.method Request.params Request.id].
    change (String.eqb "tools/call" "ping") with false.
    change (String.eqb "tools/call" "tools/list") with false.
    change (String.eqb "tools/call" "tools/call") with true.
    cbv iota. unfold handleToolCall. cbn [Params.name Params.arguments].
    change (String.eqb "analyzeKeywords" "analyzeKeywords") with true.
    cbn [negb]. cbv iota. unfold try_catch, bind.
    destruct (analyzeKeywords random now (Some args) n) as [[report|e] n'];
      reflexivity. }
  split; [|exact Hcall].
  unfold onMessage, try_catch, bind, lift at 1, ret. rewrite Hcall.
  destruct (analyzeKeywords random now (Some args) n) as [[report|e] n'];
    reflexivity.
Qed.

(** C7: a call of [analyzeKeywords] whose [keywords] is not an array
    (missing, null or any other value) is answered by the error
    envelope with code -32603, the message "Keywords array is required"
    and the id of the request; and when [keywords] is an array, no
    error envelope with that message is sent. *)
Theorem C7_keywords_array_required (args : Arguments.t) (id : Id) (n : nat) :
  (Array_isArray (Arguments.keywords args) = false ->
   handleRequest random now (callAnalyzeKeywords args id) n
   = (Ok (Failure (-32603) "Keywords array is required" id), n)
   /\ onMessage random now (Ok (callAnalyzeKeywords args id)) n
      = (Ok (Failure (-32603) "Keywords array is required" id), n))
  /\ (Array_isArray (Arguments.keywords args) = true ->
      forall code message id' n',
        onMessage random now (Ok (callAnalyzeKeywords args id)) n
        = (Ok (Failure code message id'), n') ->
        message <> "Keywords array is required").
Proof.
  destruct (call_response args id n) as [Hlistener Hcall].
  rewrite Hlistener, Hcall. clear Hlistener Hcall.
  destruct args as [keywords concept targetAudience niche].
  cbn [Arguments.keywords]. split.
  - intros Harr.
    assert (Hthrow :
      analyzeKeywords random now
        (Some {| Arguments.keywords := keywords; Arguments.concept := concept;
                 Arguments.targetAudience := targetAudience;
                 Arguments.niche := niche |}) n
      = (Throw (Error "Keywords array is required"), n)).
    { unfold analyzeKeywords. cbn [Arguments.keywords].
      rewrite Harr. cbn [negb]. rewrite orb_true_r. reflexivity. }
    rewrite Hthrow. split; reflexivity.
  - intros Harr code message id' n'.
    destruct keywords as [| | | | | |items]; try discriminate Harr.
    unfold analyzeKeywords.
    cbn [Arguments.keywords truthy Array_isArray negb orb]. unfold bind.
    destruct (mapM (analyzeKeyword random) items n) as [[mapped|e] n1] eqn:Hmap.
    + discriminate.
    + apply mapM_analyzeKeyword_throws in Hmap. subst e.
      intros [= _ <- _ _]. discriminate.
Qed.

(** C10: for a [tools/call] request without [params], [handleToolCall]
    throws while destructuring, [handleRequest] returns no envelope of
    its own but passes the exception on, and the listener answers with
    the parse error -32700 and the id [null], whatever the id of the
    request was. *)
Theorem C10_missing_params_parse_error (id : Id) (n : nat) :
  handleToolCall random now None id n
  = (Throw (TypeError
              "Cannot destructure property 'name' of 'params' as it is undefined."),
     n)
  /\ handleRequest random now (callWithoutParams id) n
     = handleToolCall random now None id n
  /\ (forall response n',
        handleRequest random now (callWithoutParams id) n <> (Ok response, n'))
  /\ onMessage random now (Ok (callWithoutParams id)) n
     = (Ok (Failure (-32700) "Parse error" IdNull), n).
Proof.
  split; [reflexivity|]. split; [reflexivity|]. split; [|reflexivity].
  intros response n'. discriminate.
Qed.

End RouterFacts.

(** [{keywords: null}] is refused; [{keywords: ["camera"]}] is not. *)
Lemma C7_witness :
  onMessage (fun _ => 1 # 2)%Q "2025-01-01T00:00:00.000Z"
            (Ok (callAnalyzeKeywords (argumentsWith Null None None None)
                                     (IdNumber 7))) 0%nat
  = (Ok (Failure (-32603) "Keywords array is required" (IdNumber 7)), 0%nat)
  /\ forall code message id' n',
       onMessage (fun _ => 1 # 2)%Q "2025-01-01T00:00:00.000Z"
                 (Ok (callAnalyzeKeywords
                        (argumentsWith (Array [KwString "camera"]) None None None)
                        (IdNumber 7))) 0%nat
       = (Ok (Failure code message id'), n') ->
       message <> "Keywords array is required".
Proof.
  split.
  - apply (C7_keywords_array_required
             (fun _ => 1 # 2)%Q "2025-01-01T00:00:00.000Z"
             (argumentsWith Null None None None) (IdNumber 7) 0%nat).
    reflexivity.
  - apply (C7_keywords_array_required
             (fun _ => 1 # 2)%Q "2025-01-01T00:00:00.000Z"
             (argumentsWith (Array [KwString "camera"]) None None None)
             (IdNumber 7) 0%nat).
    reflexivity.
Defined.

(** * Further properties of the scorer *)

Section ScorerInversion.

Variable random : nat -> Q.

(** Every field of an analyzed keyword, read off a successful run. *)
Lemma analyzeKeyword_inv (keywordData : KeywordData) (ak : AnalyzedKeyword)
      (n n' : nat) :
  analyzeKeyword random keywordData n = (Ok ak, n') ->
  exists text trend,
    keywordText keywordData = Ok text
    /\ calculateTrendDirection random (toLowerCase text) n = (Ok trend, n')
    /\ let inputData := inputDataOf keywordData in
       let c := computeCompetitionScore (toLowerCase text) in
       let v := computeVolumeScore (toLowerCase text) (in_searchVolume inputData) in
       let o := computeOpportunityScore v c (in_relevance inputData) in
       let cat := string_or (in_category inputData) "general" in
       ak = {| keyword := text;
               category := cat;
               analysis := {| competitionScore := c;
                              competitionLevel := levelOf c;
                              volumeScore := v;
                              volumeLevel := levelOf v;
                              trendDirection := trend;
                              difficulty := difficultyOf c |};
               relevance := number_or (in_relevance inputData) (1 # 2);
               opportunityScore := o;
               opportunityRating := ratingOf o;
               recommendation := getKeywordRecommendation o cat |}.
Proof.
  unfold analyzeKeyword, bind, lift.
  destruct (keywordText keywordData) as [text|e]; [|discriminate].
  destruct (calculateTrendDirection_returns random (toLowerCase text) n)
    as (t & n1 & Ht & _).
  rewrite Ht. unfold ret. intros [= <- <-].
  exists text, t. repeat split. exact Ht.
Qed.

(** An item with a keyword is always scored. *)
Lemma analyzeKeyword_runs (keywordData : KeywordData) (text : string) (n : nat) :
  keywordText keywordData = Ok text ->
  exists ak n', analyzeKeyword random keywordData n = (Ok ak, n').
Proof.
  intros Htext.
  destruct (analyzeKeyword_fields random keywordData text n Htext)
    as (ak & n' & Hrun & _).
  now exists ak, n'.
Qed.

(** The trend computation draws exactly when the keyword names neither
    a trend nor a classic, and a named trend gives [rising]. *)
Lemma calculateTrendDirection_draws (keyword : string) (n : nat) :
  exists trend,
    calculateTrendDirection random keyword n
    = (Ok trend,
       if (negb (mentionsTrend keyword) && negb (mentionsClassic keyword))%bool
       then S n else n)
    /\ (matchesAny trendingTopics keyword = true -> trend = Trend.rising).
Proof.
  unfold calculateTrendDirection, mentionsTrend, mentionsClassic.
  rewrite regex_year_test_years. fold (matchesAny trendingTopics keyword).
  destruct (matchesAny trendingTopics keyword); cbn [orb negb andb].
  { eexists. split; reflexivity. }
  destruct (matchesAny years keyword); cbn [orb negb andb].
  { eexists. split; [reflexivity | discriminate]. }
  destruct (includes keyword "classic" || includes keyword "traditional")%bool;
    cbn [negb].
  { eexists. split; [reflexivity | discriminate]. }
  unfold bind, Math_random, ret.
  destruct (Qgtb (random n) (7 # 10)).
  { eexists. split; [reflexivity | discriminate]. }
  destruct (Qgtb (random n) (3 # 10));
    eexists; (split; [reflexivity | discriminate]).
Qed.

End ScorerInversion.

(** The adjusted score never leaves the interval that the clamp keeps. *)
Lemma adjusted_score_range (keyword : string) :
  15 <= longTailRelief keyword (patternScore keyword) <= 70.
Proof.
  rewrite patternScore_sum. unfold longTailRelief, adjustment.
  destruct (Nat.leb 4 _),
           (matchesAny (highCompetition competitionPatterns) keyword),
           (matchesAny (mediumCompetition competitionPatterns) keyword),
           (matchesAny (lowCompetition competitionPatterns) keyword); lia.
Qed.

Lemma competitionScore_unclamped (keyword : string) :
  computeCompetitionScore keyword = longTailRelief keyword (patternScore keyword).
Proof.
  unfold computeCompetitionScore, clamp.
  pose proof (adjusted_score_range keyword). lia.
Qed.

Lemma baseVolumeScore_range (searchVolume : option string) :
  35 <= baseVolumeScore searchVolume <= 85.
Proof.
  unfold baseVolumeScore. destruct searchVolume as [v|]; [|lia].
  destruct (String.eqb v "high"); [lia|].
  destruct (String.eqb v "medium"); [lia|].
  destruct (String.eqb v "low"); lia.
Qed.

Lemma computeVolumeScore_sum (keyword : string) (searchVolume : option string) :
  computeVolumeScore keyword searchVolume
  = baseVolumeScore searchVolume
    + adjustment (matchesAny trendingTopics keyword) 15.
Proof.
  unfold computeVolumeScore. rewrite scan_once. unfold adjustment.
  pose proof (baseVolumeScore_range searchVolume).
  destruct (matchesAny trendingTopics keyword); lia.
Qed.

(** [split] yields one piece more than there are separators. *)
Lemma split_aux_length (sep : ascii) (s cur : string) :
  List.length (split_aux sep s cur) = S (countChar sep s).
Proof.
  revert cur. induction s as [|c s IH]; intros cur; simpl; [reflexivity|].
  destruct (Ascii.eqb c sep); simpl; now rewrite IH.
Qed.

Lemma longTailRelief_spaces (keyword : string) (score : Z) :
  longTailRelief keyword score
  = if Nat.leb 3 (countChar " " keyword) then score - 15 else score.
Proof.
  unfold longTailRelief, split. rewrite split_aux_length. reflexivity.
Qed.

Section ScorerRanges.

Variable random : nat -> Q.

(** X1: the competition score of an analyzed keyword lies between 15
    and 70: the four adjustments cannot take the base 50 outside
    [10, 95], so the clamp never changes it.  For an item with an ASCII
    keyword it is the pattern score of the lowercased keyword, less the
    long-tail relief of 15 exactly when the lowercased keyword has
    three space characters or more. *)
Theorem X1_competitionScore_range (keywordData : KeywordData) (text : string)
        (n : nat) :
  keywordText keywordData = Ok text ->
  exists ak n',
    analyzeKeyword random keywordData n = (Ok ak, n')
    /\ 15 <= competitionScore (analysis ak) <= 70
    /\ (isAscii text = true ->
        competitionScore (analysis ak)
        = patternScore (toLowerCase text)
          - (if Nat.leb 3 (countChar " " (toLowerCase text)) then 15 else 0)).
Proof.
  intros Htext.
  destruct (analyzeKeyword_fields random keywordData text n Htext)
    as (ak & n' & Hrun & _ & _ & _ & Hc & _).
  exists ak, n'. split; [exact Hrun|].
  rewrite Hc, competitionScore_unclamped. split.
  - apply adjusted_score_range.
  - intros _. rewrite longTailRelief_spaces.
    destruct (Nat.leb 3 _); lia.
Qed.

(** X2: the volume score of an analyzed keyword lies between 35 and
    100, so the cap at 100 never cuts anything off.  For an item with
    an ASCII keyword it is the base for the [searchVolume] field (85,
    60, 35, or 50 for any other or no value) plus 15 when the
    lowercased keyword names a trending topic. *)
Theorem X2_volumeScore_range (keywordData : KeywordData) (text : string)
        (n : nat) :
  keywordText keywordData = Ok text ->
  exists ak n',
    analyzeKeyword random keywordData n = (Ok ak, n')
    /\ (isAscii text = true ->
        volumeScore (analysis ak)
        = baseVolumeScore (in_searchVolume (inputDataOf keywordData))
          + adjustment (matchesAny trendingTopics (toLowerCase text)) 15)
    /\ 35 <= volumeScore (analysis ak) <= 100.
Proof.
  intros Htext.
  destruct (analyzeKeyword_fields random keywordData text n Htext)
    as (ak & n' & Hrun & _ & _ & _ & _ & Hv & _).
  exists ak, n'. split; [exact Hrun|].
  rewrite Hv, computeVolumeScore_sum. split; [reflexivity|].
  pose proof (baseVolumeScore_range (in_searchVolume (inputDataOf keywordData))).
  unfold adjustment. destruct (matchesAny trendingTopics _); lia.
Qed.

(** X3: the difficulty and the competition level of an analyzed keyword
    always correspond: hard with high (score 70), medium with medium
    (40 to 69), easy with low (below 40). *)
Theorem X3_difficulty_matches_level (keywordData : KeywordData)
        (ak : AnalyzedKeyword) (n n' : nat) :
  analyzeKeyword random keywordData n = (Ok ak, n') ->
  match difficulty (analysis ak), competitionLevel (analysis ak) with
  | Difficulty.hard, Level.high => competitionScore (analysis ak) = 70
  | Difficulty.medium, Level.medium => 40 <= competitionScore (analysis ak) < 70
  | Difficulty.easy, Level.low => 15 <= competitionScore (analysis ak) < 40
  | _, _ => False
  end.
Proof.
  intros Hrun.
  destruct (analyzeKeyword_inv random keywordData ak n n' Hrun)
    as (text & trend & _ & _ & ->).
  cbn [analysis difficulty competitionLevel competitionScore].
  rewrite competitionScore_unclamped.
  pose proof (adjusted_score_range (toLowerCase text)) as Hr.
  unfold difficultyOf, levelOf.
  destruct (Z.leb_spec 70 (longTailRelief (toLowerCase text)
                                          (patternScore (toLowerCase text)))).
  - lia.
  - destruct (Z.leb_spec 40 (longTailRelief (toLowerCase text)
                                            (patternScore (toLowerCase text))));
      lia.
Qed.

(** X4: a keyword that gets the trending-topic volume boost is always
    reported as rising, and scoring it makes no random draw. *)
Theorem X4_boost_implies_rising (keywordData : KeywordData)
        (ak : AnalyzedKeyword) (n n' : nat) :
  analyzeKeyword random keywordData n = (Ok ak, n') ->
  volumeScore (analysis ak)
  = baseVolumeScore (in_searchVolume (inputDataOf keywordData)) + 15 ->
  trendDirection (analysis ak) = Trend.rising /\ n' = n.
Proof.
  intros Hrun.
  destruct (analyzeKeyword_inv random keywordData ak n n' Hrun)
    as (text & trend & _ & Htrend & ->).
  cbn [analysis volumeScore trendDirection].
  rewrite computeVolumeScore_sum. unfold adjustment.
  destruct (matchesAny trendingTopics (toLowerCase text)) eqn:Hm; [|lia].
  intros _.
  destruct (calculateTrendDirection_draws random (toLowerCase text) n)
    as (t & Ht & Hrise).
  rewrite Ht in Htrend. unfold mentionsTrend in Htrend. rewrite Hm in Htrend.
  cbn [orb negb andb] in Htrend. injection Htrend as <- <-.
  split; [now apply Hrise | reflexivity].
Qed.

End ScorerRanges.

(** ** Rounding *)

(** Rounding keeps a value between two integers between them. *)
Lemma round_half_up_bounds (lo hi : Z) (q : Q) :
  (inject_Z lo <= q)%Q -> (q <= inject_Z hi)%Q ->
  lo <= round_half_up q <= hi.
Proof.
  intros Hlo Hhi. unfold round_half_up.
  pose proof (Qfloor_le (q + (1 # 2))) as Hfl.
  pose proof (Qlt_floor (q + (1 # 2))) as Hlt.
  rewrite inject_Z_plus in Hlt. change (inject_Z 1) with 1%Q in Hlt.
  split.
  - apply Z.lt_succ_r. unfold Z.succ. rewrite Zlt_Qlt, inject_Z_plus.
    change (inject_Z 1) with 1%Q.
    generalize dependent (inject_Z (Qfloor (q + (1 # 2)))).
    generalize dependent (inject_Z lo). intros; lra.
  - apply Z.lt_succ_r. unfold Z.succ. rewrite Zlt_Qlt, inject_Z_plus.
    change (inject_Z 1) with 1%Q.
    generalize dependent (inject_Z (Qfloor (q + (1 # 2)))).
    generalize dependent (inject_Z hi). intros; lra.
Qed.

(** ** Casing *)

Section CasingFacts.

Variable random : nat -> Q.

(** X7: two items whose keywords differ only in the casing of letters
    get the same analysis, opportunity score, rating and recommendation
    and make the same draws; each keeps its own spelling in the
    [keyword] field. *)
Theorem X7_scores_ignore_case (keyword1 keyword2 : string)
        (category searchVolume : option string) (relevance : option Q)
        (n : nat) :
  toLowerCase keyword1 = toLowerCase keyword2 ->
  exists a1 a2 n',
    analyzeKeyword random (itemOf keyword1 category searchVolume relevance) n
    = (Ok a1, n')
    /\ analyzeKeyword random (itemOf keyword2 category searchVolume relevance) n
       = (Ok a2, n')
    /\ keyword a1 = keyword1 /\ keyword a2 = keyword2
    /\ analysis a1 = analysis a2
    /\ opportunityScore a1 = opportunityScore a2
    /\ opportunityRating a1 = opportunityRating a2
    /\ recommendation a1 = recommendation a2.
Proof.
  intros Hcase.
  destruct (analyzeKeyword_runs
              random (itemOf keyword1 category searchVolume relevance)
              keyword1 n eq_refl) as (a1 & n1 & Hrun1).
  destruct (analyzeKeyword_runs
              random (itemOf keyword2 category searchVolume relevance)
              keyword2 n eq_refl) as (a2 & n2 & Hrun2).
  destruct (analyzeKeyword_inv random _ _ _ _ Hrun1)
    as (t1 & trend1 & [= <-] & Htrend1 & E1).
  destruct (analyzeKeyword_inv random _ _ _ _ Hrun2)
    as (t2 & trend2 & [= <-] & Htrend2 & E2).
  rewrite Hcase in Htrend1. rewrite Htrend1 in Htrend2.
  injection Htrend2 as <- <-.
  exists a1, a2, n1. split; [exact Hrun1|]. split; [exact Hrun2|].
  cbv zeta in E1, E2. rewrite Hcase in E1. subst a1 a2.
  repeat split; reflexivity.
Qed.

End CasingFacts.

(** ** Further properties of the router *)

Section RouterEdges.

Variable random : nat -> Q.
Variable now : string.

(** X8: a [tools/call] whose tool name is missing or is not
    "analyzeKeywords" is answered with code -32602, the name in the
    message and the id of the request; the arguments are not looked
    at and nothing is drawn. *)
Theorem X8_unknown_tool (name : option string)
        (arguments : option Arguments.t) (id : Id) (n : nat) :
  name <> Some "analyzeKeywords" ->
  onMessage random now (Ok (callTool name arguments id)) n
  = (Ok (Failure (-32602) ("Unknown tool: " ++ interpolate name) id), n).
Proof.
  intros Hname.
  assert (Hneq : match name with
                 | Some s => String.eqb s "analyzeKeywords"
                 | None => false
                 end = false).
  { destruct name as [s|]; [|reflexivity].
    destruct (String.eqb_spec s "analyzeKeywords"); congruence. }
  unfold onMessage, try_catch, bind, lift at 1, handleRequest, callTool.
  cbn [Request.method Request.params Request.id].
  change (String.eqb "tools/call" "ping") with false.
  change (String.eqb "tools/call" "tools/list") with false.
  change (String.eqb "tools/call" "tools/call") with true.
  cbv iota. unfold handleToolCall. cbn [Params.name Params.arguments].
  rewrite Hneq. reflexivity.
Qed.

(** X9: a request whose method is missing or is none of "ping",
    "tools/list" and "tools/call" is answered with code -32601, the
    method in the message and the id of the request, whatever its
    [params]. *)
Theorem X9_method_not_found (method : option string)
        (params : option Params.t) (id : Id) (n : nat) :
  method <> Some "ping" -> method <> Some "tools/list" ->
  method <> Some "tools/call" ->
  onMessage random now (Ok (requestOf method params id)) n
  = (Ok (Failure (-32601) ("Method not found: " ++ interpolate method) id), n).
Proof.
  intros Hping Hlist Hcall.
  unfold onMessage, try_catch, bind, lift at 1, handleRequest, requestOf.
  cbn [Request.method Request.params Request.id].
  destruct method as [m|]; [|reflexivity].
  destruct (String.eqb_spec m "ping"); [congruence|].
  destruct (String.eqb_spec m "tools/list"); [congruence|].
  destruct (String.eqb_spec m "tools/call"); [congruence|].
  reflexivity.
Qed.

(** X10: the listener answers every message with exactly one envelope
    and lets no exception escape.  The envelope is a result or an error
    with one of the codes -32700, -32601, -32602, -32603; it is either
    the parse error with id [null], or it carries the id of the
    request. *)
Theorem X10_listener_always_answers (parsed : Result Request.t) (n : nat) :
  exists response n',
    onMessage random now parsed n = (Ok response, n')
    /\ match response with
       | Success _ _ => True
       | Failure code _ _ => In code [-32700; -32601; -32602; -32603]
       end
    /\ (response = Failure (-32700) "Parse error" IdNull
        \/ exists request,
             parsed = Ok request /\ responseId response = Request.id request).
Proof.
  unfold onMessage, try_catch, bind, lift at 1.
  destruct parsed as [request|e].
  2:{ eexists _, _. split; [reflexivity|]. cbn. auto. }
  destruct request as [method params id].
  unfold handleRequest. cbn [Request.method Request.params Request.id].
  destruct method as [m|].
  2:{ eexists _, _. split; [reflexivity|]. cbn. split; [auto|].
      right. eexists. split; reflexivity. }
  destruct (String.eqb m "ping").
  { eexists _, _. split; [reflexivity|]. cbn. split; [auto|].
    right. eexists. split; reflexivity. }
  destruct (String.eqb m "tools/list").
  { eexists _, _. split; [reflexivity|]. cbn. split; [auto|].
    right. eexists. split; reflexivity. }
  destruct (String.eqb m "tools/call").
  2:{ eexists _, _. split; [reflexivity|]. cbn. split; [auto|].
      right. eexists. split; reflexivity. }
  unfold handleToolCall. destruct params as [params|].
  2:{ eexists _, _. split; [reflexivity|]. cbn. auto. }
  destruct (negb _).
  { eexists _, _. split; [reflexivity|]. cbn. split; [auto|].
    right. eexists. split; reflexivity. }
  unfold try_catch, bind.
  destruct (analyzeKeywords random now (Params.arguments params) n)
    as [[report|e] n1].
  - eexists _, _. split; [reflexivity|]. cbn. split; [auto|].
    right. eexists. split; reflexivity.
  - eexists _, _. split; [reflexivity|]. cbn. split; [auto 6|].
    right. eexists. split; reflexivity.
Qed.

(** One item without a keyword makes the whole mapping throw. *)
Lemma mapM_analyzeKeyword_fails (items : list KeywordData) (n : nat) :
  Exists lacksKeyword items ->
  exists n', mapM (analyzeKeyword random) items n = (Throw missingKeyword, n').
Proof.
  intros Hbad. revert n.
  induction items as [|item items IH]; intros n.
  - inversion Hbad.
  - cbn [mapM]. unfold bind at 1.
    destruct (keywordText item) as [text|e] eqn:Htext.
    + destruct (analyzeKeyword_runs random item text n Htext)
        as (ak & n1 & Hrun).
      rewrite Hrun.
      assert (Hrest : Exists lacksKeyword items).
      { inversion Hbad as [? ? Hhead|]; [|assumption].
        unfold lacksKeyword in Hhead. congruence. }
      destruct (IH Hrest n1) as (n' & Hthrow).
      unfold bind at 1. rewrite Hthrow. now exists n'.
    + rewrite (analyzeKeyword_throws random item e n Htext).
      apply keywordText_throw in Htext. subst e. now exists n.
Qed.

(** X11: if one item of the array has no keyword, the whole call is
    refused: the answer is the error -32603 with the engine's message
    for [undefined.toLowerCase()], and no report is produced for the
    other items. *)
Theorem X11_item_without_keyword (items : list KeywordData)
        (concept targetAudience niche : option string) (id : Id) (n : nat) :
  Exists lacksKeyword items ->
  exists n',
    onMessage random now
      (Ok (callTool (Some "analyzeKeywords")
                    (Some (argumentsWith (Array items) concept targetAudience
                                         niche))
                    id)) n
    = (Ok (Failure (-32603)
                   "Cannot read properties of undefined (reading 'toLowerCase')"
                   id),
       n').
Proof.
  intros Hbad.
  destruct (mapM_analyzeKeyword_fails items n Hbad) as (n' & Hthrow).
  exists n'.
  change (callTool (Some "analyzeKeywords")
                   (Some (argumentsWith (Array items) concept targetAudience
                                        niche)) id)
    with (callAnalyzeKeywords
            (argumentsWith (Array items) concept targetAudience niche) id).
  destruct (call_response
              random now
              (argumentsWith (Array items) concept targetAudience niche) id n)
    as [-> ->].
  unfold analyzeKeywords, argumentsWith.
  cbn [Arguments.keywords truthy Array_isArray negb orb].
  unfold bind. rewrite Hthrow. reflexivity.
Qed.

End RouterEdges.

(** ** Further properties of the report *)

Lemma firstn_min_app {A} (a : nat) (l r : list A) :
  firstn (Nat.min a (List.length l)) (l ++ r) = firstn a l.
Proof.
  revert a. induction l as [|x l IH]; intros a.
  - rewrite Nat.min_0_r, firstn_nil. reflexivity.
  - destruct a as [|a]; [reflexivity|]. cbn. now rewrite IH.
Qed.

Lemma skipn_length_app {A} (l r : list A) :
  skipn (List.length l) (l ++ r) = r.
Proof. induction l as [|x l IH]; [reflexivity | exact IH]. Qed.

Lemma Forall2_texts (items : list KeywordData) (texts : list string)
      (analyzed : list AnalyzedKeyword) :
  Forall2 (fun item t => keywordText item = Ok t) items texts ->
  Forall2 (fun item ak => keywordText item = Ok (keyword ak)) items analyzed ->
  map keyword analyzed = texts.
Proof.
  intros H. revert analyzed.
  induction H as [|item t items texts Ht _ IH]; intros analyzed Ha.
  - inversion Ha. reflexivity.
  - inversion Ha as [|? ak ? rest Hak Hrest]; subst. cbn.
    f_equal; [congruence | now apply IH].
Qed.

Section ReportMore.

Variable random : nat -> Q.
Variable now : string.

(** The remaining fields of the report of a batch that was scored. *)
Lemma analyzeKeywords_report_rest (items : list KeywordData)
      (concept targetAudience niche : option string)
      (mapped : list AnalyzedKeyword) (n n' : nat) :
  mapM (analyzeKeyword random) items n = (Ok mapped, n') ->
  exists report,
    analyzeKeywords random now
      (Some (argumentsWith (Array items) concept targetAudience niche)) n
    = (Ok report, n')
    /\ allKeywords report = Array_sort byOpportunity mapped
    /\ primary (recommended report)
       = slice0 3 (topKeywords (allKeywords report))
    /\ secondary (recommended report)
       = slice0 5 (goodKeywords (allKeywords report))
    /\ longTail (recommended report)
       = slice0 10 (filter (fun k => String.eqb (category k) "long-tail")
                           (allKeywords report))
    /\ insights report = generateInsights (allKeywords report) concept niche.
Proof.
  intros Hmap. unfold analyzeKeywords, argumentsWith.
  cbn [Arguments.keywords Arguments.concept Arguments.niche
       Arguments.targetAudience truthy Array_isArray negb orb].
  unfold bind. rewrite Hmap. unfold ret.
  eexists. split; [reflexivity|]. cbn. repeat split; reflexivity.
Qed.

(** Scoring an item with a keyword draws once or not at all, as
    [needsDraw] tells. *)
Lemma analyzeKeyword_draw (keywordData : KeywordData) (text : string) (n : nat) :
  keywordText keywordData = Ok text ->
  exists ak,
    analyzeKeyword random keywordData n
    = (Ok ak, if needsDraw keywordData then S n else n).
Proof.
  intros Htext.
  destruct (analyzeKeyword_fields random keywordData text n Htext)
    as (ak & n' & Hrun & Htrend & _).
  destruct (calculateTrendDirection_draws random (toLowerCase text) n)
    as (t & Ht & _).
  rewrite Ht in Htrend. injection Htrend as _ <-.
  exists ak. unfold needsDraw. now rewrite Htext.
Qed.

Lemma mapM_analyzeKeyword_draws (items : list KeywordData) (n : nat) :
  Forall hasKeyword items ->
  exists analyzed,
    mapM (analyzeKeyword random) items n
    = (Ok analyzed, (n + List.length (filter needsDraw items))%nat).
Proof.
  intros Hall. revert n.
  induction Hall as [|item items [text Htext] _ IH]; intros n.
  - exists []. cbn. now rewrite Nat.add_0_r.
  - destruct (analyzeKeyword_draw item text n Htext) as (ak & Hrun).
    cbn [mapM filter]. unfold bind at 1. rewrite Hrun. unfold bind at 1.
    destruct (needsDraw item).
    + destruct (IH (S n)) as (analyzed & Hrest). rewrite Hrest.
      exists (ak :: analyzed). cbn [List.length]. unfold ret.
      now rewrite Nat.add_succ_r.
    + destruct (IH n) as (analyzed & Hrest). rewrite Hrest.
      now exists (ak :: analyzed).
Qed.

(** X12: analyzing a batch whose items all carry an ASCII keyword calls
    [Math.random] once for every item whose lowercased keyword names
    neither a trending topic, nor a year 2024-2029, nor "classic" or
    "traditional", and for no other item. *)
Theorem X12_draws_per_batch (items : list KeywordData)
        (concept targetAudience niche : option string) (n : nat) :
  Forall asciiKeyword items ->
  exists report,
    analyzeKeywords random now
      (Some (argumentsWith (Array items) concept targetAudience niche)) n
    = (Ok report, (n + List.length (filter needsDraw items))%nat).
Proof.
  intros Hascii.
  assert (Hall : Forall hasKeyword items).
  { eapply Forall_impl; [|exact Hascii].
    intros item (text & Htext & _). now exists text. }
  destruct (mapM_analyzeKeyword_draws items n Hall) as (analyzed & Hmap).
  destruct (analyzeKeywords_report random now items concept targetAudience niche
                                   analyzed n _ Hmap)
    as (report & Hrun & _).
  now exists report.
Qed.

(** X13: the primary recommendations are the first keywords of
    [allKeywords], as many as reach 70 but at most three; the secondary
    ones are the first keywords after the top tier, as many as lie in
    [50, 70) but at most five; at most ten long-tail keywords are
    listed. *)
Theorem X13_recommended_are_prefixes (items : list KeywordData)
        (concept targetAudience niche : option string) (n : nat) :
  Forall hasKeyword items ->
  exists report n',
    analyzeKeywords random now
      (Some (argumentsWith (Array items) concept targetAudience niche)) n
    = (Ok report, n')
    /\ primary (recommended report)
       = firstn (Nat.min 3 (topOpportunities (summary report)))
                (allKeywords report)
    /\ secondary (recommended report)
       = firstn (Nat.min 5 (goodOpportunities (summary report)))
                (skipn (topOpportunities (summary report)) (allKeywords report))
    /\ (List.length (longTail (recommended report)) <= 10)%nat.
Proof.
  intros Hall.
  destruct (mapM_analyzeKeyword_returns random items n Hall)
    as (analyzed & n' & Hmap & _).
  destruct (analyzeKeywords_report random now items concept targetAudience niche
                                   analyzed n n' Hmap)
    as (report & Hrun & Hsorted & _ & Htop & Hgood & _).
  destruct (analyzeKeywords_report_rest items concept targetAudience niche
                                        analyzed n n' Hmap)
    as (report' & Hrun' & _ & Hprimary & Hsecondary & HlongTail & _).
  rewrite Hrun in Hrun'. injection Hrun' as <-.
  exists report, n'. split; [exact Hrun|].
  assert (Hdesc : descending opportunityScore (allKeywords report)).
  { rewrite Hsorted. apply (Array_sort_descending opportunityScore). }
  pose proof (tiers_concat _ Hdesc) as Hcat.
  rewrite Hprimary, Hsecondary, HlongTail, Htop, Hgood. unfold slice0.
  set (all := allKeywords report) in *.
  pose proof (firstn_min_app 3 (topKeywords all)
                             (goodKeywords all ++ lowPriorityKeywords all))
    as Hfirst.
  pose proof (skipn_length_app (topKeywords all)
                               (goodKeywords all ++ lowPriorityKeywords all))
    as Hskip.
  rewrite <- Hcat in Hfirst, Hskip.
  split; [|split].
  - symmetry. exact Hfirst.
  - rewrite Hskip. symmetry. apply firstn_min_app.
  - apply firstn_le_length.
Qed.

(** X14: every keyword of the request appears in [allKeywords] exactly
    as often as among the items and in its original spelling, and
    [totalAnalyzed] is the number of items. *)
Theorem X14_keywords_preserved (items : list KeywordData) (texts : list string)
        (concept targetAudience niche : option string) (n : nat) :
  Forall2 (fun item t => keywordText item = Ok t) items texts ->
  exists report n',
    analyzeKeywords random now
      (Some (argumentsWith (Array items) concept targetAudience niche)) n
    = (Ok report, n')
    /\ Permutation texts (map keyword (allKeywords report))
    /\ totalAnalyzed report = List.length texts.
Proof.
  intros Htexts.
  assert (Hall : Forall hasKeyword items).
  { clear -Htexts. induction Htexts as [|item t items texts Ht _ IH].
    - constructor.
    - constructor; [now exists t | exact IH]. }
  destruct (mapM_analyzeKeyword_returns random items n Hall)
    as (analyzed & n' & Hmap & Hitems).
  destruct (analyzeKeywords_report random now items concept targetAudience niche
                                   analyzed n n' Hmap)
    as (report & Hrun & Hsorted & Htotal & _).
  exists report, n'. split; [exact Hrun|].
  assert (Hkw : map keyword analyzed = texts).
  { eapply Forall2_texts; [exact Htexts|].
    eapply Forall2_impl; [|exact Hitems]. cbv beta. now intros ? ? [H _]. }
  assert (Hperm : Permutation analyzed (allKeywords report)).
  { rewrite Hsorted. apply (Array_sort_perm opportunityScore). }
  split.
  - rewrite <- Hkw. now apply Permutation_map.
  - rewrite Htotal, <- (Permutation_length Hperm), <- Hkw.
    symmetry. apply length_map.
Qed.

(** X15: the three counts of the summary are the numbers of keywords of
    [allKeywords] rated excellent, good and low. *)
Theorem X15_counts_match_ratings (items : list KeywordData)
        (concept targetAudience niche : option string) (n : nat) :
  Forall hasKeyword items ->
  exists report n',
    analyzeKeywords random now
      (Some (argumentsWith (Array items) concept targetAudience niche)) n
    = (Ok report, n')
    /\ topOpportunities (summary report)
       = List.length (withRating Rating.excellent (allKeywords report))
    /\ goodOpportunities (summary report)
       = List.length (withRating Rating.good (allKeywords report))
    /\ lowPriority (summary report)
       = List.length (withRating Rating.low (allKeywords report)).
Proof.
  intros Hall.
  destruct (mapM_analyzeKeyword_returns random items n Hall)
    as (analyzed & n' & Hmap & Hitems).
  destruct (analyzeKeywords_report random now items concept targetAudience niche
                                   analyzed n n' Hmap)
    as (report & Hrun & Hsorted & _ & Htop & Hgood & Hlow & _).
  exists report, n'. split; [exact Hrun|].
  assert (Hrated : Forall (fun ak => opportunityRating ak
                                     = ratingOf (opportunityScore ak))
                          (allKeywords report)).
  { rewrite Hsorted.
    eapply Permutation_Forall; [apply (Array_sort_perm opportunityScore)|].
    clear -Hitems. induction Hitems as [|item ak items analyzed Hak _ IH];
      constructor; [|exact IH].
    destruct Hak as (_ & m & m' & Hrun).
    destruct (analyzeKeyword_inv random item ak m m' Hrun)
      as (text & trend & _ & _ & ->).
    reflexivity. }
  rewrite Htop, Hgood, Hlow.
  unfold withRating, topKeywords, goodKeywords, lowPriorityKeywords.
  clear -Hrated. induction Hrated as [|ak l Hak _ IH]; [now repeat split|].
  destruct IH as (IH1 & IH2 & IH3). cbn [filter]. rewrite Hak.
  unfold ratingOf.
  destruct (Z.leb_spec 70 (opportunityScore ak)) as [H70|H70];
    destruct (Z.leb_spec 50 (opportunityScore ak)) as [H50|H50];
    destruct (Z.ltb_spec (opportunityScore ak) 70);
    destruct (Z.ltb_spec (opportunityScore ak) 50);
    try lia; cbn [andb List.length]; repeat split; congruence.
Qed.

End ReportMore.

(** ** Insights and the average *)

Lemma generateInsights_gap (l : list AnalyzedKeyword)
      (concept niche : option string) :
  List.length (insightsOfType "gap" (generateInsights l concept niche))
  = if existsb (String.eqb "long-tail") (map category l) then 0%nat else 1%nat.
Proof.
  unfold generateInsights, insightsOfType.
  destruct (existsb (String.eqb "long-tail") (map category l));
    destruct (Nat.ltb 0 (List.length (filter isRising l)));
    destruct (Nat.ltb 0 (List.length (filter isEasyWin l)));
    destruct niche as [[|c s]|]; reflexivity.
Qed.

Lemma generateInsights_niche (l : list AnalyzedKeyword)
      (concept niche : option string) :
  insightsOfType "niche" (generateInsights l concept niche)
  = match niche with
    | Some (String c s) =>
        [ {| Insight.type := "niche";
             Insight.message :=
               "For " ++ String c s
               ++ " content, focus on specific terminology and community language";
             Insight.keywords := None |} ]
    | _ => []
    end.
Proof.
  unfold generateInsights, insightsOfType.
  destruct (existsb (String.eqb "long-tail") (map category l));
    destruct (Nat.ltb 0 (List.length (filter isRising l)));
    destruct (Nat.ltb 0 (List.length (filter isEasyWin l)));
    destruct niche as [[|c s]|]; reflexivity.
Qed.

Lemma longTail_filter_empty (l : list AnalyzedKeyword) :
  existsb (String.eqb "long-tail") (map category l)
  = match slice0 10 (filter (fun k => String.eqb (category k) "long-tail") l) with
    | [] => false
    | _ :: _ => true
    end.
Proof.
  induction l as [|k l IH]; [reflexivity|].
  cbn [map existsb filter]. rewrite (String.eqb_sym "long-tail").
  destruct (String.eqb (category k) "long-tail"); [reflexivity | exact IH].
Qed.

(** The sum that [reduce] computes. *)
Lemma fold_left_sum_bounds (lo hi : Z) (l : list AnalyzedKeyword) (acc : Z) :
  Forall (fun k => lo <= opportunityScore k <= hi) l ->
  acc + Z.of_nat (List.length l) * lo
  <= fold_left (fun sum k => sum + opportunityScore k) l acc
  <= acc + Z.of_nat (List.length l) * hi.
Proof.
  intros Hl. revert acc. induction Hl as [|k l Hk _ IH]; intros acc.
  - cbn. lia.
  - cbn [fold_left List.length]. specialize (IH (acc + opportunityScore k)).
    rewrite Nat2Z.inj_succ. lia.
Qed.

Lemma js_div_round_bounds (sum len : Z) :
  0 < len ->
  Math_round (js_div (inject_Z sum) (inject_Z len))
  = Finite (inject_Z (round_half_up (inject_Z sum / inject_Z len)))
  /\ forall lo hi,
       len * lo <= sum <= len * hi ->
       lo <= round_half_up (inject_Z sum / inject_Z len) <= hi.
Proof.
  intros Hlen. unfold js_div.
  assert (Hpos : (0 < inject_Z len)%Q).
  { change 0%Q with (inject_Z 0). rewrite <- Zlt_Qlt. exact Hlen. }
  destruct (Qeq_bool (inject_Z len) 0) eqn:E.
  { apply Qeq_bool_iff in E. rewrite E in Hpos. now apply Qlt_irrefl in Hpos. }
  split; [reflexivity|]. intros lo hi Hsum.
  apply round_half_up_bounds.
  - apply Qle_shift_div_l; [exact Hpos|].
    rewrite <- inject_Z_mult, <- Zle_Qle. lia.
  - apply Qle_shift_div_r; [exact Hpos|].
    rewrite <- inject_Z_mult, <- Zle_Qle. lia.
Qed.

Section InsightFacts.

Variable random : nat -> Q.
Variable now : string.

(** X16: the report has the gap insight exactly when its list of
    recommended long-tail keywords is empty, and then it has it once. *)
Theorem X16_gap_iff_no_longTail (items : list KeywordData)
        (concept targetAudience niche : option string) (n : nat) :
  Forall hasKeyword items ->
  exists report n',
    analyzeKeywords random now
      (Some (argumentsWith (Array items) concept targetAudience niche)) n
    = (Ok report, n')
    /\ List.length (insightsOfType "gap" (insights report))
       = match longTail (recommended report) with
         | [] => 1%nat
         | _ :: _ => 0%nat
         end.
Proof.
  intros Hall.
  destruct (mapM_analyzeKeyword_returns random items n Hall)
    as (analyzed & n' & Hmap & _).
  destruct (analyzeKeywords_report_rest random now items concept targetAudience
                                        niche analyzed n n' Hmap)
    as (report & Hrun & _ & _ & _ & HlongTail & Hinsights).
  exists report, n'. split; [exact Hrun|].
  rewrite Hinsights, HlongTail, generateInsights_gap, longTail_filter_empty.
  destruct (slice0 10 _); reflexivity.
Qed.

(** X17: the report has exactly one niche insight, naming the niche,
    when a non-empty [niche] was given, and none when [niche] is
    missing or is the empty string. *)
Theorem X17_niche_insight (items : list KeywordData)
        (concept targetAudience niche : option string) (n : nat) :
  Forall hasKeyword items ->
  exists report n',
    analyzeKeywords random now
      (Some (argumentsWith (Array items) concept targetAudience niche)) n
    = (Ok report, n')
    /\ insightsOfType "niche" (insights report)
       = match niche with
         | Some (String c s) =>
             [ {| Insight.type := "niche";
                  Insight.message :=
                    "For " ++ String c s
                    ++ " content, focus on specific terminology and community language";
                  Insight.keywords := None |} ]
         | _ => []
         end.
Proof.
  intros Hall.
  destruct (mapM_analyzeKeyword_returns random items n Hall)
    as (analyzed & n' & Hmap & _).
  destruct (analyzeKeywords_report_rest random now items concept targetAudience
                                        niche analyzed n n' Hmap)
    as (report & Hrun & _ & _ & _ & _ & Hinsights).
  exists report, n'. split; [exact Hrun|].
  rewrite Hinsights. apply generateInsights_niche.
Qed.

(** X18: for a batch of at least one item, all with a keyword and with
    a relevance that is absent or between 0 and 1, the average
    opportunity score of the summary is an integer, and it lies between
    any two bounds that enclose the scores of [allKeywords]. *)
Theorem X18_average_within_scores (items : list KeywordData)
        (concept targetAudience niche : option string) (n : nat) :
  Forall hasKeyword items -> Forall unitRelevance items -> items <> [] ->
  exists report n' z,
    analyzeKeywords random now
      (Some (argumentsWith (Array items) concept targetAudience niche)) n
    = (Ok report, n')
    /\ averageOpportunityScore (summary report) = Finite (inject_Z z)
    /\ forall lo hi,
         Forall (fun k => lo <= opportunityScore k <= hi) (allKeywords report) ->
         lo <= z <= hi.
Proof.
  intros Hall _ Hne.
  destruct (mapM_analyzeKeyword_returns random items n Hall)
    as (analyzed & n' & Hmap & Hitems).
  destruct (analyzeKeywords_report random now items concept targetAudience niche
                                   analyzed n n' Hmap)
    as (report & Hrun & Hsorted & _ & _ & _ & _ & Havg).
  assert (Hlen : 0 < Z.of_nat (List.length (allKeywords report))).
  { rewrite Hsorted. unfold byOpportunity.
    rewrite <- (Permutation_length (Array_sort_perm opportunityScore analyzed)).
    rewrite <- (Forall2_length Hitems).
    destruct items; [congruence | cbn [List.length]; lia]. }
  destruct (js_div_round_bounds
              (fold_left (fun sum k => sum + opportunityScore k)
                         (allKeywords report) 0)
              (Z.of_nat (List.length (allKeywords report))) Hlen)
    as (Hfinite & Hrange).
  eexists report, n', _. split; [exact Hrun|].
  split; [rewrite Havg; exact Hfinite|].
  intros lo hi Hbounds. apply Hrange.
  pose proof (fold_left_sum_bounds lo hi _ 0 Hbounds). lia.
Qed.

End InsightFacts.

(** ** The first next step *)

Lemma topKeywords_head (k : AnalyzedKeyword) (rest : list AnalyzedKeyword) :
  descending opportunityScore (k :: rest) ->
  hd_error (slice0 3 (topKeywords (k :: rest)))
  = if 70 <=? opportunityScore k then Some k else None.
Proof.
  intros Hdesc. unfold topKeywords. cbn [filter].
  destruct (Z.leb_spec 70 (opportunityScore k)) as [H70|H70]; [reflexivity|].
  apply StronglySorted_inv in Hdesc. destruct Hdesc as [_ Hk].
  rewrite filter_none; [reflexivity|].
  eapply Forall_impl; [|exact Hk]. cbv beta. intros; lia.
Qed.

Section NextStepFacts.

Variable random : nat -> Q.
Variable now : string.

Lemma analyzeKeywords_nextSteps (items : list KeywordData)
      (concept targetAudience niche : option string)
      (mapped : list AnalyzedKeyword) (n n' : nat) :
  mapM (analyzeKeyword random) items n = (Ok mapped, n') ->
  exists report,
    analyzeKeywords random now
      (Some (argumentsWith (Array items) concept targetAudience niche)) n
    = (Ok report, n')
    /\ allKeywords report = Array_sort byOpportunity mapped
    /\ hd_error (nextSteps report)
       = Some ("Use " ++ dquote
               ++ string_or (option_map keyword
                               (hd_error (slice0 3 (topKeywords
                                                      (allKeywords report)))))
                            "top keyword"
               ++ dquote ++ " as your main title keyword")
    /\ List.length (nextSteps report) = 4%nat.
Proof.
  intros Hmap. unfold analyzeKeywords, argumentsWith.
  cbn [Arguments.keywords truthy Array_isArray negb orb].
  unfold bind. rewrite Hmap. unfold ret.
  eexists. split; [reflexivity|]. cbn. repeat split; reflexivity.
Qed.

(** X19: the report has four next steps, and the first one names the
    keyword of the first entry of [allKeywords], the best-scored one,
    provided that entry reaches 70 and has a non-empty keyword;
    otherwise it says "top keyword". *)
Theorem X19_first_step_names_best (items : list KeywordData)
        (concept targetAudience niche : option string) (n : nat) :
  Forall hasKeyword items ->
  exists report n',
    analyzeKeywords random now
      (Some (argumentsWith (Array items) concept targetAudience niche)) n
    = (Ok report, n')
    /\ List.length (nextSteps report) = 4%nat
    /\ hd_error (nextSteps report)
       = Some ("Use " ++ dquote ++ titleKeyword (allKeywords report)
               ++ dquote ++ " as your main title keyword").
Proof.
  intros Hall.
  destruct (mapM_analyzeKeyword_returns random items n Hall)
    as (analyzed & n' & Hmap & _).
  destruct (analyzeKeywords_nextSteps items concept targetAudience niche
                                      analyzed n n' Hmap)
    as (report & Hrun & Hsorted & Hfirst & Hfour).
  exists report, n'. split; [exact Hrun|]. split; [exact Hfour|].
  rewrite Hfirst. do 3 f_equal.
  assert (Hdesc : descending opportunityScore (allKeywords report)).
  { rewrite Hsorted. apply (Array_sort_descending opportunityScore). }
  unfold titleKeyword.
  destruct (allKeywords report) as [|k rest]; [reflexivity|].
  rewrite (topKeywords_head k rest Hdesc).
  destruct (70 <=? opportunityScore k); reflexivity.
Qed.

End NextStepFacts.

(** ** The properties at the sample inputs *)

Lemma sampleItems_hasKeyword : Forall hasKeyword sampleItems.
Proof. repeat constructor; eexists; reflexivity. Defined.

Lemma sampleItems_asciiKeyword : Forall asciiKeyword sampleItems.
Proof.
  repeat constructor; eexists; (split; [reflexivity | reflexivity]).
Defined.

Lemma sampleItems_unitRelevance : Forall unitRelevance sampleItems.
Proof.
  unfold sampleItems.
  constructor; [|constructor; [|constructor; [|constructor]]];
    intros r Hr; cbn in Hr; try discriminate Hr.
  injection Hr as <-. split; discriminate.
Defined.

Lemma X1_witness :
  exists ak n',
    analyzeKeyword sampleRandom (KwString "Hidden AI camera tips for beginners")
                   0%nat
    = (Ok ak, n')
    /\ 15 <= competitionScore (analysis ak) <= 70
    /\ competitionScore (analysis ak) = 35 - 15.
Proof.
  destruct (X1_competitionScore_range
              sampleRandom (KwString "Hidden AI camera tips for beginners")
              "Hidden AI camera tips for beginners" 0%nat eq_refl)
    as (ak & n' & Hrun & Hrange & Hscore).
  exists ak, n'. split; [exact Hrun|]. split; [exact Hrange|].
  exact (Hscore eq_refl).
Defined.

Lemma X2_witness :
  exists ak n',
    analyzeKeyword sampleRandom
                   (itemOf "AI tools" None (Some "high") None) 0%nat
    = (Ok ak, n')
    /\ volumeScore (analysis ak) = 85 + 15.
Proof.
  destruct (X2_volumeScore_range
              sampleRandom (itemOf "AI tools" None (Some "high") None)
              "AI tools" 0%nat eq_refl)
    as (ak & n' & Hrun & Hvolume & _).
  exists ak, n'. split; [exact Hrun | exact (Hvolume eq_refl)].
Defined.

Lemma X3_witness :
  exists ak n',
    analyzeKeyword sampleRandom (KwString "hidden camera tips") 0%nat
    = (Ok ak, n')
    /\ match difficulty (analysis ak), competitionLevel (analysis ak) with
       | Difficulty.hard, Level.high => competitionScore (analysis ak) = 70
       | Difficulty.medium, Level.medium =>
           40 <= competitionScore (analysis ak) < 70
       | Difficulty.easy, Level.low => 15 <= competitionScore (analysis ak) < 40
       | _, _ => False
       end.
Proof.
  destruct (analyzeKeyword_runs sampleRandom (KwString "hidden camera tips")
                                "hidden camera tips" 0%nat eq_refl)
    as (ak & n' & Hrun).
  exists ak, n'. split; [exact Hrun|].
  exact (X3_difficulty_matches_level
           sampleRandom (KwString "hidden camera tips") ak 0%nat n' Hrun).
Defined.

Lemma X4_witness :
  exists ak n',
    analyzeKeyword sampleRandom (itemOf "AI tools" None (Some "high") None) 0%nat
    = (Ok ak, n')
    /\ trendDirection (analysis ak) = Trend.rising /\ n' = 0%nat.
Proof.
  destruct (analyzeKeyword_fields
              sampleRandom (itemOf "AI tools" None (Some "high") None)
              "AI tools" 0%nat eq_refl)
    as (ak & n' & Hrun & _ & _ & _ & _ & Hvolume & _).
  exists ak, n'. split; [exact Hrun|].
  exact (X4_boost_implies_rising
           sampleRandom (itemOf "AI tools" None (Some "high") None)
           ak 0%nat n' Hrun Hvolume).
Defined.

Lemma X7_witness :
  exists a1 a2 n',
    analyzeKeyword sampleRandom (itemOf "AI Tools" None None None) 0%nat
    = (Ok a1, n')
    /\ analyzeKeyword sampleRandom (itemOf "ai tools" None None None) 0%nat
       = (Ok a2, n')
    /\ keyword a1 = "AI Tools" /\ keyword a2 = "ai tools"
    /\ analysis a1 = analysis a2
    /\ opportunityScore a1 = opportunityScore a2
    /\ opportunityRating a1 = opportunityRating a2
    /\ recommendation a1 = recommendation a2.
Proof.
  exact (X7_scores_ignore_case
           sampleRandom "AI Tools" "ai tools" None None None 0%nat eq_refl).
Defined.

Lemma X8_witness :
  onMessage sampleRandom sampleNow
            (Ok (callTool (Some "unknownTool") None (IdNumber 3))) 0%nat
  = (Ok (Failure (-32602) "Unknown tool: unknownTool" (IdNumber 3)), 0%nat).
Proof.
  apply (X8_unknown_tool sampleRandom sampleNow (Some "unknownTool") None
                         (IdNumber 3) 0%nat).
  discriminate.
Defined.

Lemma X9_witness :
  onMessage sampleRandom sampleNow
            (Ok (requestOf (Some "resources/list") None (IdString "a"))) 0%nat
  = (Ok (Failure (-32601) "Method not found: resources/list" (IdString "a")),
     0%nat).
Proof.
  apply (X9_method_not_found sampleRandom sampleNow (Some "resources/list")
                             None (IdString "a") 0%nat); discriminate.
Defined.

Lemma X11_witness :
  exists n',
    onMessage sampleRandom sampleNow
      (Ok (callTool (Some "analyzeKeywords")
                    (Some (argumentsWith
                             (Array [ KwString "camera";
                                      KwObject {| in_keyword := None;
                                                  in_category := Some "primary";
                                                  in_searchVolume := None;
                                                  in_competition := None;
                                                  in_relevance := None |} ])
                             None None None))
                    (IdNumber 5))) 0%nat
    = (Ok (Failure (-32603)
                   "Cannot read properties of undefined (reading 'toLowerCase')"
                   (IdNumber 5)),
       n').
Proof.
  apply (X11_item_without_keyword sampleRandom sampleNow).
  apply Exists_cons_tl, Exists_cons_hd. reflexivity.
Defined.

Lemma X12_witness :
  exists report,
    analyzeKeywords sampleRandom sampleNow
      (Some (argumentsWith (Array sampleItems) None None None)) 0%nat
    = (Ok report, 1%nat).
Proof.
  exact (X12_draws_per_batch sampleRandom sampleNow sampleItems None None None
                             0%nat sampleItems_asciiKeyword).
Defined.

Lemma X13_witness :
  exists report n',
    analyzeKeywords sampleRandom sampleNow
      (Some (argumentsWith (Array sampleItems) None None None)) 0%nat
    = (Ok report, n')
    /\ primary (recommended report)
       = firstn (Nat.min 3 (topOpportunities (summary report)))
                (allKeywords report).
Proof.
  destruct (X13_recommended_are_prefixes
              sampleRandom sampleNow sampleItems None None None 0%nat
              sampleItems_hasKeyword)
    as (report & n' & Hrun & Hprimary & _).
  exists report, n'. split; assumption.
Defined.

Lemma X14_witness :
  exists report n',
    analyzeKeywords sampleRandom sampleNow
      (Some (argumentsWith (Array sampleItems) None None None)) 0%nat
    = (Ok report, n')
    /\ Permutation [ "camera"; "Hidden AI camera tips for beginners";
                     "classic lens review" ]
                   (map keyword (allKeywords report))
    /\ totalAnalyzed report = 3%nat.
Proof.
  apply (X14_keywords_preserved
           sampleRandom sampleNow sampleItems
           [ "camera"; "Hidden AI camera tips for beginners";
             "classic lens review" ]
           None None None 0%nat).
  repeat constructor.
Defined.

Lemma X15_witness :
  exists report n',
    analyzeKeywords sampleRandom sampleNow
      (Some (argumentsWith (Array sampleItems) None None None)) 0%nat
    = (Ok report, n')
    /\ topOpportunities (summary report)
       = List.length (withRating Rating.excellent (allKeywords report)).
Proof.
  destruct (X15_counts_match_ratings
              sampleRandom sampleNow sampleItems None None None 0%nat
              sampleItems_hasKeyword)
    as (report & n' & Hrun & Htop & _).
  exists report, n'. split; assumption.
Defined.

Lemma X16_witness :
  exists report n',
    analyzeKeywords sampleRandom sampleNow
      (Some (argumentsWith (Array sampleItems) None None None)) 0%nat
    = (Ok report, n')
    /\ List.length (insightsOfType "gap" (insights report))
       = match longTail (recommended report) with
         | [] => 1%nat
         | _ :: _ => 0%nat
         end.
Proof.
  exact (X16_gap_iff_no_longTail
           sampleRandom sampleNow sampleItems None None None 0%nat
           sampleItems_hasKeyword).
Defined.

Lemma X17_witness :
  exists report n',
    analyzeKeywords sampleRandom sampleNow
      (Some (argumentsWith (Array sampleItems) None None (Some "gaming"))) 0%nat
    = (Ok report, n')
    /\ List.length (insightsOfType "niche" (insights report)) = 1%nat.
Proof.
  destruct (X17_niche_insight
              sampleRandom sampleNow sampleItems None None (Some "gaming") 0%nat
              sampleItems_hasKeyword)
    as (report & n' & Hrun & Hniche).
  exists report, n'. split; [exact Hrun|]. now rewrite Hniche.
Defined.

Lemma X18_witness :
  exists report n' z,
    analyzeKeywords sampleRandom sampleNow
      (Some (argumentsWith (Array sampleItems) None None None)) 0%nat
    = (Ok report, n')
    /\ averageOpportunityScore (summary report) = Finite (inject_Z z).
Proof.
  destruct (X18_average_within_scores
              sampleRandom sampleNow sampleItems None None None 0%nat
              sampleItems_hasKeyword sampleItems_unitRelevance)
    as (report & n' & z & Hrun & Havg & _).
  - discriminate.
  - exists report, n', z. split; assumption.
Defined.

Lemma X19_witness :
  exists report n',
    analyzeKeywords sampleRandom sampleNow
      (Some (argumentsWith (Array sampleItems) None None None)) 0%nat
    = (Ok report, n')
    /\ List.length (nextSteps report) = 4%nat
    /\ hd_error (nextSteps report)
       = Some ("Use " ++ dquote ++ titleKeyword (allKeywords report)
               ++ dquote ++ " as your main title keyword").
Proof.
  exact (X19_first_step_names_best
           sampleRandom sampleNow sampleItems None None None 0%nat
           sampleItems_hasKeyword).
Defined.
